(** * Peripage printer server: the print service and the BLE adapter

    A shallow embedding of
      - [internal/core/ports.go] and [internal/core/service.go]
        (the [Printer] port and [PrintService]),
      - the test double [mockPrinter] of [internal/core/service_test.go],
      - [internal/adapters/printer/mock.go] (the stdout printer),
      - [internal/adapters/printer/ble.go] (the [BLEPrinter] adapter:
        [Connect], [performHandshake], [PrintText], [textToBitmap],
        [sendBitmap], [Disconnect]).

    Go's [error] interface values are modelled by [option error]
    ([None] is [nil]).  Methods with a pointer receiver become state
    transformers: the receiver's fields, the Bluetooth adapter and the
    logger live in an explicit [World]. *)

From Stdlib Require Import String Ascii List ZArith Lia Bool Arith.
From Stdlib Require Import DecimalString.
From Stdlib.Strings Require Import Byte.
Import ListNotations.
Local Open Scope string_scope.
Local Open Scope list_scope.

(* ===================================================================== *)
(** ** Go errors *)
(* ===================================================================== *)

(** The source builds every error with [fmt.Errorf]: either a constant
    message, or ["<prefix>: %w"] wrapping a cause. *)
Inductive error : Type :=
| Errorf (msg : string)
| Wrapf (prefix : string) (cause : error).

(** [err.Error()] *)
Fixpoint Error (e : error) : string :=
  match e with
  | Errorf msg => msg
  | Wrapf prefix cause => prefix ++ ": " ++ Error cause
  end.

(** [errors.Unwrap(err)] *)
Definition Unwrap (e : error) : option error :=
  match e with
  | Errorf _ => None
  | Wrapf _ cause => Some cause
  end.

(** The innermost error of a chain of [%w] wrappers. *)
Fixpoint root_cause (e : error) : error :=
  match e with
  | Errorf _ => e
  | Wrapf _ cause => root_cause cause
  end.

(** [fmt.Sprintf("%d", n)] for a length. *)
Definition itoa (n : nat) : string := NilZero.string_of_uint (Nat.to_uint n).

(* ===================================================================== *)
(** ** package core *)
(* ===================================================================== *)

Module core.

(** [type Printer interface { PrintText(text string) error }].  An
    implementation has some state [P]; a call may change it. *)
Class Printer (P : Type) : Type :=
  { PrintText : string -> P -> P * option error }.

(** [type PrintService struct { printer Printer }] *)
Record PrintService (P : Type) : Type := mkPrintService { printer : P }.
Arguments mkPrintService {P} _.
Arguments printer {P} _.

Definition NewPrintService {P : Type} (p : P) : PrintService P :=
  mkPrintService p.

(** [func (s *PrintService) PrintText(text string) error] *)
Definition PrintService_PrintText {P : Type} `{Printer P}
    (text : string) (s : PrintService P) : PrintService P * option error :=
  if String.eqb text "" then
    (s, Some (Errorf "text cannot be empty"))
  else
    let (p', err) := PrintText text (printer s) in
    (mkPrintService p', err).

(** The test double of [service_test.go]. *)
Record mockPrinter : Type := mkMock { lastText : string; err : option error }.

#[global] Instance mockPrinter_Printer : Printer mockPrinter :=
  {| PrintText text m :=
       match err m with
       | Some e => (m, Some e)
       | None => (mkMock text (err m), None)
       end |}.

(** An observer around any printer: it records the argument of every
    call that reaches the wrapped printer, the way the test doubles
    record what they were called with. *)
Record Recorded (P : Type) : Type :=
  mkRecorded { inner : P; Calls : list string }.
Arguments mkRecorded {P} _ _.
Arguments inner {P} _.
Arguments Calls {P} _.

#[global] Instance Recorded_Printer {P : Type} `{Printer P}
  : Printer (Recorded P) :=
  {| PrintText text r :=
       let (p', e) := PrintText text (inner r) in
       (mkRecorded p' (Calls r ++ [text]), e) |}.

End core.

(* ===================================================================== *)
(** ** tinygo.org/x/bluetooth, as far as the adapter uses it *)
(* ===================================================================== *)

Module bluetooth.

Definition Address : Type := string.

(** One advertisement handed to the scan callback. *)
Record ScanResult : Type :=
  mkScanResult { ResultAddress : Address; RSSI : Z; LocalName : string }.

Record Device : Type := mkDevice { DeviceAddress : Address }.

(** Go's zero value of [ScanResult] ([var foundDevice bluetooth.ScanResult]). *)
Definition zeroScanResult : ScanResult := mkScanResult "" 0%Z "".

End bluetooth.

(* ===================================================================== *)
(** ** package printer: the BLE adapter *)
(* ===================================================================== *)

Module printer.
Import bluetooth.

(** What a run does to the outside: log lines and calls on the
    Bluetooth stack, oldest first.  [CharacteristicWrite] is the
    library's write of one packet to a characteristic. *)
Inductive Event : Type :=
| Log (line : string)
| AdapterScan
| AdapterStopScan
| AdapterConnect (addr : Address)
| DeviceDisconnect (addr : Address)
| CharacteristicWrite (payload : list byte).

(** [type BLEPrinter struct]; the [adapter] and [logger] pointers are
    the [World] below. *)
Record BLEPrinter : Type :=
  mkBLEPrinter { device : option Device;
                 deviceName : string;
                 scanTimeout : Z }.

(** [type BLEPrinterConfig struct] (durations in nanoseconds). *)
Record BLEPrinterConfig : Type :=
  mkConfig { DeviceName : string; ScanTimeout : Z }.

Definition Second : Z := 1000000000%Z.

(** The receiver [b], the adapter's scanning flag, the bytes the
    device has sent back and nobody has read yet, and the trace. *)
Record World : Type :=
  mkWorld { b : BLEPrinter;
            scanning : bool;
            inbox : list (list byte);
            trace : list Event }.

(** How the Bluetooth stack and the scheduler behave during a run. *)
Record Stack : Type :=
  mkStack { enableErr : option error;     (* adapter.Enable() *)
            scanErr : option error;       (* adapter.Scan(...) *)
            adverts : list ScanResult;    (* all the results the scan ever delivers *)
            doneFirst : bool;             (* select picks <-scanCtx.Done() when both are ready *)
            connectErr : nat -> Address -> option error;
                                          (* adapter.Connect, by number of earlier attempts *)
            disconnectErr : Address -> option error  (* device.Disconnect() *) }.

(** *** A state monad over [World] *)

Definition M (A : Type) : Type := World -> A * World.

Definition ret {A : Type} (a : A) : M A := fun w => (a, w).

Definition bind {A B : Type} (c : M A) (k : A -> M B) : M B :=
  fun w => let (a, w') := c w in k a w'.

Declare Scope go_scope.
Delimit Scope go_scope with go.
Notation "x <- c ;; k" := (bind c (fun x => k))
  (at level 61, c at next level, right associativity) : go_scope.
Notation "c ;; k" := (bind c (fun _ => k))
  (at level 61, right associativity) : go_scope.
Local Open Scope go_scope.

Definition emit (e : Event) : M unit :=
  fun w => (tt, mkWorld (b w) (scanning w) (inbox w) (trace w ++ [e])).

Definition get_b : M BLEPrinter := fun w => (b w, w).

(** [b.device = d] *)
Definition set_device (d : option Device) : M unit :=
  fun w => (tt, mkWorld (mkBLEPrinter d (deviceName (b w)) (scanTimeout (b w)))
                        (scanning w) (inbox w) (trace w)).

Definition set_scanning (s : bool) : M unit :=
  fun w => (tt, mkWorld (b w) s (inbox w) (trace w)).

Definition get_scanning : M bool := fun w => (scanning w, w).

(** [b.logger.Printf] / [b.logger.Println] with the line already formatted. *)
Definition logger_Println (line : string) : M unit := emit (Log line).

(** Number of [adapter.Connect] calls made so far. *)
Fixpoint connect_attempts (t : list Event) : nat :=
  match t with
  | [] => 0
  | AdapterConnect _ :: t' => S (connect_attempts t')
  | _ :: t' => connect_attempts t'
  end.

(** The addresses [adapter.Connect] was called with, oldest first. *)
Fixpoint connect_targets (t : list Event) : list Address :=
  match t with
  | [] => []
  | AdapterConnect a :: t' => a :: connect_targets t'
  | _ :: t' => connect_targets t'
  end.

(** The packets written to the printer, oldest first. *)
Fixpoint frames_written (t : list Event) : list (list byte) :=
  match t with
  | [] => []
  | CharacteristicWrite p :: t' => p :: frames_written t'
  | _ :: t' => frames_written t'
  end.

(** Number of scans started. *)
Fixpoint scans_started (t : list Event) : nat :=
  match t with
  | [] => 0
  | AdapterScan :: t' => S (scans_started t')
  | _ :: t' => scans_started t'
  end.

(** *** The library calls *)

(** [adapter.StopScan()] (its error is dropped by the source). *)
Definition adapter_StopScan : M unit :=
  emit AdapterStopScan ;; set_scanning false.

(** What a call that can wait for ever comes to: it returns a value,
    or it never returns. *)
Inductive Outcome (A : Type) : Type :=
| Returns (a : A)
| Blocks.
Arguments Returns {A} _.
Arguments Blocks {A}.

(** The scan loop of the library: results go to the callback one at a
    time, and the loop ends once [StopScan] has been called, not
    before.  When the advertisements have run out and the scan is still
    on, the loop goes on waiting: the call never returns. *)
Fixpoint deliver {L : Type} (callback : ScanResult -> L -> M L)
    (rs : list ScanResult) (l : L) : M (Outcome L) :=
  match rs with
  | [] => ret Blocks
  | r :: rs' =>
      l' <- callback r l ;;
      s <- get_scanning ;;
      if s then deliver callback rs' l' else ret (Returns l')
  end.

(** [adapter.Scan(callback)]: fails before scanning, or scans until
    [StopScan] is called. *)
Definition adapter_Scan {L : Type} (env : Stack)
    (callback : ScanResult -> L -> M L) (l : L)
  : M (Outcome (L * option error)) :=
  emit AdapterScan ;;
  match scanErr env with
  | Some e => ret (Returns (l, Some e))
  | None =>
      set_scanning true ;;
      scanned <- deliver callback (adverts env) l ;;
      match scanned with
      | Blocks => ret Blocks
      | Returns l' => ret (Returns (l', None))
      end
  end.

(** [adapter.Connect(addr, bluetooth.ConnectionParams{})] *)
Definition adapter_Connect (env : Stack) (addr : Address) : M (Device + error) :=
  fun w =>
    let n := connect_attempts (trace w) in
    let (_, w') := emit (AdapterConnect addr) w in
    match connectErr env n addr with
    | Some e => (inr e, w')
    | None => (inl (mkDevice addr), w')
    end.

(** [device.Disconnect()] *)
Definition device_Disconnect (env : Stack) (d : Device) : M (option error) :=
  emit (DeviceDisconnect (DeviceAddress d)) ;;
  ret (disconnectErr env (DeviceAddress d)).

(** *** The adapter *)

(** [func NewBLEPrinter(config BLEPrinterConfig)], returning the printer or an error. *)
Definition NewBLEPrinter (env : Stack) (config : BLEPrinterConfig)
  : World + error :=
  let timeout :=
    if Z.eqb (ScanTimeout config) 0 then (10 * Second)%Z else ScanTimeout config in
  match enableErr env with
  | Some e => inr (Wrapf "failed to enable BLE adapter" e)
  | None =>
      inl (mkWorld (mkBLEPrinter None (DeviceName config) timeout) false [] [])
  end.

(** The variables the scan callback of [Connect] closes over;
    [deviceCh] is a channel with a buffer of one. *)
Record ScanLocals : Type :=
  mkLocals { foundDevice : ScanResult;
             found : bool;
             deviceCh : list ScanResult }.

(** The function literal passed to [b.adapter.Scan] in [Connect]. *)
Definition Connect_callback (result : ScanResult) (l : ScanLocals)
  : M ScanLocals :=
  logger_Println ("Found device: " ++ LocalName result
                  ++ " [" ++ ResultAddress result ++ "]") ;;
  p <- get_b ;;
  if String.eqb (LocalName result) (deviceName p) then
    (* foundDevice = result; found = true; deviceCh <- result *)
    adapter_StopScan ;;
    ret (mkLocals result true (deviceCh l ++ [result]))
  else
    ret l.

(** [func (b *BLEPrinter) performHandshake() error] *)
Definition performHandshake : M (option error) :=
  logger_Println "Performing handshake with printer..." ;;
  logger_Println "Handshake completed (placeholder)" ;;
  ret None.

(** [Connect] from [b.adapter.Connect] to its end. *)
Definition Connect_link (env : Stack) (l : ScanLocals) : M (option error) :=
  r <- adapter_Connect env (ResultAddress (foundDevice l)) ;;
  match r with
  | inr e => ret (Some (Wrapf "failed to connect to device" e))
  | inl d =>
      set_device (Some d) ;;
      logger_Println "Successfully connected to printer" ;;
      herr <- performHandshake ;;
      match herr with
      | Some e => ret (Some (Wrapf "handshake failed" e))
      | None => ret None
      end
  end.

(** The [select] of [Connect] and what follows it.  With an empty
    channel only the context's deadline can fire. *)
Definition Connect_select (env : Stack) (l : ScanLocals) : M (option error) :=
  let on_done :=
    adapter_StopScan ;;
    if negb (found l) then
      ret (Some (Errorf "device not found within timeout"))
    else Connect_link env l in
  match deviceCh l with
  | [] => on_done
  | _ :: _ =>
      if doneFirst env then on_done
      else
        logger_Println ("Found target device: " ++ LocalName (foundDevice l)) ;;
        Connect_link env l
  end.

(** [func (b *BLEPrinter) Connect(ctx context.Context) error]: what it
    returns, or [Blocks] when it stays in [b.adapter.Scan] for ever. *)
Definition Connect (env : Stack) : M (Outcome (option error)) :=
  p <- get_b ;;
  logger_Println ("Scanning for device: " ++ deviceName p) ;;
  scanned <- adapter_Scan env Connect_callback (mkLocals zeroScanResult false []) ;;
  match scanned with
  | Blocks => ret Blocks
  | Returns r =>
      match snd r with
      | Some e => ret (Returns (Some (Wrapf "failed to start scan" e)))
      | None =>
          err <- Connect_select env (fst r) ;;
          ret (Returns err)
      end
  end.

(** [func (b *BLEPrinter) textToBitmap(text string) ([]byte, error)] *)
Definition textToBitmap (text : string) : M (list byte * option error) :=
  logger_Println "Converting text to bitmap (placeholder)" ;;
  ret ([], Some (Errorf "bitmap rendering not yet implemented")).

(** [func (b *BLEPrinter) sendBitmap(bitmap []byte) error] *)
Definition sendBitmap (bitmap : list byte) : M (option error) :=
  logger_Println ("Sending " ++ itoa (length bitmap)
                  ++ " bytes to printer (placeholder)") ;;
  ret (Some (Errorf "bitmap sending not yet implemented")).

(** [func (b *BLEPrinter) PrintText(text string) error] *)
Definition PrintText (text : string) : M (option error) :=
  p <- get_b ;;
  match device p with
  | None => ret (Some (Errorf "not connected to printer"))
  | Some _ =>
      logger_Println ("Printing text: " ++ text) ;;
      r <- textToBitmap text ;;
      match snd r with
      | Some e => ret (Some (Wrapf "failed to convert text to bitmap" e))
      | None =>
          serr <- sendBitmap (fst r) ;;
          match serr with
          | Some e => ret (Some (Wrapf "failed to send bitmap" e))
          | None =>
              logger_Println "Print job completed successfully" ;;
              ret None
          end
      end
  end.

(** [func (b *BLEPrinter) Disconnect() error] *)
Definition Disconnect (env : Stack) : M (option error) :=
  p <- get_b ;;
  match device p with
  | None => ret None
  | Some d =>
      logger_Println "Disconnecting from printer" ;;
      derr <- device_Disconnect env d ;;
      match derr with
      | Some e => ret (Some (Wrapf "failed to disconnect" e))
      | None =>
          set_device None ;;
          logger_Println "Disconnected successfully" ;;
          ret None
      end
  end.

(** [*BLEPrinter] implements [core.Printer]. *)
#[global] Instance BLEPrinter_Printer : core.Printer World :=
  {| core.PrintText text w := let (e, w') := PrintText text w in (w', e) |}.

(** One write of the stdout printer: a line through its logger
    ([m.logger.Println]) or a line on standard output ([fmt.Println]). *)
Inductive Output : Type :=
| Logged (line : string)
| Printed (text : string).

(** [internal/adapters/printer/mock.go]: the stdout printer.  Its
    state is what it has written, oldest first. *)
Record MockPrinter : Type := mkMockPrinter { written : list Output }.

(** The lines that went through the logger. *)
Definition logged (m : MockPrinter) : list string :=
  flat_map (fun o => match o with Logged line => [line] | Printed _ => [] end)
           (written m).

(** The lines that went to standard output. *)
Definition stdout (m : MockPrinter) : list string :=
  flat_map (fun o => match o with Logged _ => [] | Printed text => [text] end)
           (written m).

(** [func (m *MockPrinter) PrintText(text string) error] *)
Definition MockPrinter_PrintText (text : string) (m : MockPrinter)
  : MockPrinter * option error :=
  (mkMockPrinter
     (written m ++ [Logged "=== MOCK PRINTER OUTPUT ===";
                    Printed text;
                    Logged "=== END MOCK PRINTER OUTPUT ==="]),
   None).

#[global] Instance MockPrinter_Printer : core.Printer MockPrinter :=
  {| core.PrintText := MockPrinter_PrintText |}.

(** *** Overlapping [PrintText] calls

    [PrintText] takes no lock, so two goroutines calling it on one
    [*BLEPrinter] interleave at its statements.  [Pc] is where a call
    stands; [PrintText_step] runs it up to its next call or return. *)
Inductive Pc : Type :=
| AtEntry (text : string)          (* about to test [b.device == nil] *)
| AtRender (text : string)         (* about to call [b.textToBitmap(text)] *)
| AtSend (bitmap : list byte)      (* about to call [b.sendBitmap(bitmap)] *)
| AtFinish                         (* about to log completion *)
| Returned (err : option error).

Definition PrintText_step (pc : Pc) : M Pc :=
  match pc with
  | AtEntry text =>
      p <- get_b ;;
      match device p with
      | None => ret (Returned (Some (Errorf "not connected to printer")))
      | Some _ =>
          logger_Println ("Printing text: " ++ text) ;;
          ret (AtRender text)
      end
  | AtRender text =>
      r <- textToBitmap text ;;
      match snd r with
      | Some e => ret (Returned (Some (Wrapf "failed to convert text to bitmap" e)))
      | None => ret (AtSend (fst r))
      end
  | AtSend bitmap =>
      serr <- sendBitmap bitmap ;;
      match serr with
      | Some e => ret (Returned (Some (Wrapf "failed to send bitmap" e)))
      | None => ret AtFinish
      end
  | AtFinish =>
      logger_Println "Print job completed successfully" ;;
      ret (Returned None)
  | Returned r => ret (Returned r)
  end.

(** A call alone: its steps one after the other. *)
Fixpoint run_call (n : nat) (pc : Pc) : M Pc :=
  match n with
  | O => ret pc
  | S n' => pc' <- PrintText_step pc ;; run_call n' pc'
  end.

(** A call is in flight once it is past the connection test and has
    not returned. *)
Definition in_flight (pc : Pc) : bool :=
  match pc with
  | AtEntry _ | Returned _ => false
  | AtRender _ | AtSend _ | AtFinish => true
  end.

Definition result_of (pc : Pc) : option (option error) :=
  match pc with
  | Returned r => Some r
  | _ => None
  end.

(** Two calls on the same printer and a schedule saying whose turn it is. *)
Inductive Goroutine : Type := FirstCall | SecondCall.

Definition sched_step (g : Goroutine) (c : Pc * Pc) : M (Pc * Pc) :=
  match g with
  | FirstCall => pc <- PrintText_step (fst c) ;; ret (pc, snd c)
  | SecondCall => pc <- PrintText_step (snd c) ;; ret (fst c, pc)
  end.

Fixpoint run_schedule (s : list Goroutine) (c : Pc * Pc) : M (Pc * Pc) :=
  match s with
  | [] => ret c
  | g :: s' => c' <- sched_step g c ;; run_schedule s' c'
  end.

(** What a call returns when nothing else runs: it depends on
    [b.device] only. *)
Definition alone (d : option Device) : option error :=
  match d with
  | None => Some (Errorf "not connected to printer")
  | Some _ =>
      Some (Wrapf "failed to convert text to bitmap"
                  (Errorf "bitmap rendering not yet implemented"))
  end.

(** Where a call can stand, given [b.device]: at its entry, at the
    renderer (only with a device), or returned with the result it has
    alone.  The renderer always fails, so the later statements are
    never reached. *)
Definition on_track (d : option Device) (pc : Pc) : Prop :=
  match pc with
  | AtEntry _ => True
  | AtRender _ => d <> None
  | AtSend _ | AtFinish => False
  | Returned r => r = alone d
  end.

(** *** The raster format named in the comments of [textToBitmap] *)

(** [384px width for Peripage A6] *)
Definition printWidthPx : nat := 384.

(** A packed 1-bit image of at least one row. *)
Definition is_bitmap_image (bs : list byte) : Prop :=
  exists rows : nat, 1 <= rows /\ length bs = rows * (printWidthPx / 8).

(** *** Vocabulary for the statements below *)

(** [w] with the events [evs] added to its trace. *)
Definition log_to (w : World) (evs : list Event) : World :=
  mkWorld (b w) (scanning w) (inbox w) (trace w ++ evs).

(** The first advertisement carrying the wanted name. *)
Definition first_match (name : string) (rs : list ScanResult) : option ScanResult :=
  find (fun r => String.eqb (LocalName r) name) rs.

(** The line the scan callback logs for an advertisement. *)
Definition found_log (r : ScanResult) : Event :=
  Log ("Found device: " ++ LocalName r ++ " [" ++ ResultAddress r ++ "]").

(** What a scan for [name] leaves in the trace. *)
Fixpoint scan_events (name : string) (rs : list ScanResult) : list Event :=
  match rs with
  | [] => []
  | r :: rs' =>
      Log ("Found device: " ++ LocalName r ++ " [" ++ ResultAddress r ++ "]")
      :: (if String.eqb (LocalName r) name then [AdapterStopScan]
          else scan_events name rs')
  end.

(** The largest signal strength among the advertisements named [name]. *)
Definition strongest (name : string) (rs : list ScanResult) : option Z :=
  fold_right
    (fun r acc =>
       if String.eqb (LocalName r) name then
         match acc with
         | None => Some (RSSI r)
         | Some z => Some (Z.max (RSSI r) z)
         end
       else acc)
    None rs.

(** What the [select] of [Connect] leaves in the trace once a device
    was taken. *)
Definition select_events (env : Stack) (r : ScanResult) : list Event :=
  if doneFirst env then [AdapterStopScan]
  else [Log ("Found target device: " ++ LocalName r)].

(** The trace of [Connect] up to and including its call of
    [adapter.Connect] on [r]. *)
Definition approach (env : Stack) (w : World) (r : ScanResult) : list Event :=
  trace w
  ++ [Log ("Scanning for device: " ++ deviceName (b w)); AdapterScan]
  ++ scan_events (deviceName (b w)) (adverts env)
  ++ select_events env r
  ++ [AdapterConnect (ResultAddress r)].

(** The same advertisements heard at other signal strengths. *)
Definition with_signal (f : ScanResult -> Z) (rs : list ScanResult)
  : list ScanResult :=
  map (fun r => mkScanResult (ResultAddress r) (f r) (LocalName r)) rs.

(** [env] with other advertisements in the air. *)
Definition advertising (env : Stack) (rs : list ScanResult) : Stack :=
  mkStack (enableErr env) (scanErr env) rs (doneFirst env)
          (connectErr env) (disconnectErr env).

(** *** Sample environments *)

(** A printer created by [NewBLEPrinter] for the default device name,
    not yet connected. *)
Definition fresh_world : World :=
  mkWorld (mkBLEPrinter None "Peripage" (10 * Second)%Z) false [] [].

Definition weak_printer : ScanResult :=
  mkScanResult "C0:FF:EE:00:00:01" (-80)%Z "Peripage".

Definition strong_printer : ScanResult :=
  mkScanResult "C0:FF:EE:00:00:02" (-40)%Z "Peripage".

Definition headphones : ScanResult :=
  mkScanResult "11:22:33:44:55:66" (-30)%Z "Headphones".

(** A stack on which everything succeeds; [ads] are in the air. *)
Definition stack_with (ads : list ScanResult) : Stack :=
  mkStack None None ads false (fun _ _ => None) (fun _ => None).

(** A stack whose first connection attempt is refused and whose later
    attempts would succeed. *)
Definition flaky_stack : Stack :=
  mkStack None None [weak_printer] false
          (fun n _ => if Nat.eqb n 0 then Some (Errorf "connection refused") else None)
          (fun _ => None).

(** A stack that refuses every connection attempt. *)
Definition refusing_stack : Stack :=
  mkStack None None [weak_printer] false
          (fun _ _ => Some (Errorf "connection refused"))
          (fun _ => None).

(** The printer after a successful [Connect]. *)
Definition connected_world : World :=
  snd (Connect (stack_with [weak_printer]) fresh_world).

(** A connected printer whose device has answered with [reply]. *)
Definition world_replying (reply : list byte) : World :=
  mkWorld (b connected_world) false [reply] (trace connected_world).

End printer.

(* ===================================================================== *)
(** ** package core, continued: PrintJSON *)
(* ===================================================================== *)

Module service.

Section PrintJSON.

Context {P : Type} `{core.Printer P}.

(** The values handed to [PrintJSON] and [json.MarshalIndent(data, "", "  ")]
    of [encoding/json] on them: the text, or the marshalling error. *)
Context {D : Type}.
Variable json_MarshalIndent : D -> string + error.

(** [func (s *PrintService) PrintJSON(data interface{}) error];
    [None] is the [nil] interface value. *)
Definition PrintService_PrintJSON (data : option D) (s : core.PrintService P)
  : core.PrintService P * option error :=
  match data with
  | None => (s, Some (Errorf "data cannot be nil"))
  | Some d =>
      match json_MarshalIndent d with
      | inr e => (s, Some (Wrapf "failed to marshal JSON" e))
      | inl jsonBytes =>
          let (p', err) := core.PrintText jsonBytes (core.printer s) in
          (core.mkPrintService p', err)
      end
  end.

End PrintJSON.

End service.

(* ===================================================================== *)
(** ** package config *)
(* ===================================================================== *)

Module config.

(** [type ServerConfig struct] *)
Record ServerConfig : Type := mkServerConfig { Port : string }.

(** [type PrinterConfig struct]; the field [Type] is [Type_] here. *)
Record PrinterConfig : Type :=
  mkPrinterConfig { Type_ : string; DeviceName : string; Timeout : Z }.

(** [type BLEConfig struct] *)
Record BLEConfig : Type := mkBLEConfig { ScanTimeout : Z }.

(** [type Config struct] *)
Record Config : Type :=
  mkConfig { Server : ServerConfig; Printer : PrinterConfig; BLE : BLEConfig }.

(** [func (c *Config) Validate() error] *)
Definition Validate (c : Config) : option error :=
  if negb (String.eqb (Type_ (Printer c)) "mock")
     && negb (String.eqb (Type_ (Printer c)) "ble") then
    Some (Errorf ("invalid printer type: " ++ Type_ (Printer c)
                  ++ " (must be 'mock' or 'ble')"))
  else if String.eqb (Type_ (Printer c)) "ble"
          && String.eqb (DeviceName (Printer c)) "" then
    Some (Errorf "device name is required for BLE printer")
  else None.

Section Environment.

(** [os.Getenv]: the value of a variable, [""] when it is not set. *)
Variable os_Getenv : string -> string.

(** [time.ParseDuration], in nanoseconds. *)
Variable time_ParseDuration : string -> Z + error.

(** [func getEnv(key, defaultValue string) string] *)
Definition getEnv (key defaultValue : string) : string :=
  let value := os_Getenv key in
  if negb (String.eqb value "") then value else defaultValue.

(** [func parseDuration(s string) time.Duration] *)
Definition parseDuration (s : string) : Z :=
  match time_ParseDuration s with
  | inr _ => 0%Z
  | inl d => d
  end.

(** [func Load()], returning the configuration or an error. *)
Definition Load : Config + error :=
  let config :=
    mkConfig
      (mkServerConfig (getEnv "PORT" "8080"))
      (mkPrinterConfig (getEnv "PRINTER_TYPE" "mock")
                       (getEnv "PRINTER_DEVICE_NAME" "Peripage")
                       (parseDuration (getEnv "PRINTER_TIMEOUT" "30s")))
      (mkBLEConfig (parseDuration (getEnv "BLE_SCAN_TIMEOUT" "10s"))) in
  match Validate config with
  | Some err => inr err
  | None => inl config
  end.

End Environment.

End config.

(* ===================================================================== *)
(** ** package api: the HTTP handler *)
(* ===================================================================== *)

Module api.

(** [http.StatusOK], [http.StatusBadRequest], [http.StatusInternalServerError] *)
Definition StatusOK : nat := 200.
Definition StatusBadRequest : nat := 400.
Definition StatusInternalServerError : nat := 500.

(** [type PrintRequest struct]: [Data] is a Go map, [None] when nil. *)
Record PrintRequest (MapT : Type) : Type :=
  mkPrintRequest { Text : string; Data : option MapT }.
Arguments mkPrintRequest {MapT} _ _.
Arguments Text {MapT} _.
Arguments Data {MapT} _.

(** What [c.JSON] is given: [ErrorResponse], [PrintResponse] or the
    [gin.H] of the health check. *)
Inductive Body : Type :=
| ErrorResponse (Error_ : string)
| PrintResponse (Success : bool) (Message : string)
| HealthBody (status : string).

(** [c.JSON(code, obj)] *)
Record Response : Type := mkResponse { Code : nat; JSON : Body }.

(** [type Handler struct { service *core.PrintService }] *)
Record Handler (P : Type) : Type := mkHandler { service : core.PrintService P }.
Arguments mkHandler {P} _.
Arguments service {P} _.

Definition NewHandler {P : Type} (s : core.PrintService P) : Handler P :=
  mkHandler s.

Section Print.

Context {P : Type} `{core.Printer P}.

(** The maps a request body can carry in ["data"], Go's [len] on them
    and [json.MarshalIndent] on them. *)
Context {MapT : Type}.
Variable len : MapT -> nat.
Variable json_MarshalIndent : MapT -> string + error.

(** [func (h *Handler) Print(c *gin.Context)]; [bound] is what
    [c.ShouldBindJSON(&req)] made of the body: the request, or its
    error. *)
Definition Print (bound : PrintRequest MapT + error) (h : Handler P)
  : Handler P * Response :=
  match bound with
  | inr err =>
      (h, mkResponse StatusBadRequest
                     (ErrorResponse ("Invalid request body: " ++ Error err)))
  | inl req =>
      let called : option (core.PrintService P * option error) :=
        match Data req with
        | Some m =>
            if Nat.ltb 0 (len m) then
              Some (service.PrintService_PrintJSON json_MarshalIndent
                      (Some m) (service h))
            else if negb (String.eqb (Text req) "") then
              Some (core.PrintService_PrintText (Text req) (service h))
            else None
        | None =>
            if negb (String.eqb (Text req) "") then
              Some (core.PrintService_PrintText (Text req) (service h))
            else None
        end in
      match called with
      | None =>
          (h, mkResponse StatusBadRequest
                (ErrorResponse "Either 'text' or 'data' must be provided"))
      | Some (s', Some err) =>
          (mkHandler s',
           mkResponse StatusInternalServerError
                      (ErrorResponse ("Print failed: " ++ Error err)))
      | Some (s', None) =>
          (mkHandler s',
           mkResponse StatusOK
                      (PrintResponse true "Print job completed successfully"))
      end
  end.

(** [func (h *Handler) HealthCheck(c *gin.Context)] *)
Definition HealthCheck (h : Handler P) : Handler P * Response :=
  (h, mkResponse StatusOK (HealthBody "healthy")).

End Print.

(** A request carries no usable data: no map, or an empty one. *)
Definition no_data {MapT : Type} (len : MapT -> nat) (req : PrintRequest MapT)
  : Prop :=
  match Data req with
  | None => True
  | Some m => len m = 0
  end.

(** The response of [Print] to what the service returned. *)
Definition reply_to (e : option error) : Response :=
  match e with
  | None =>
      mkResponse StatusOK (PrintResponse true "Print job completed successfully")
  | Some err =>
      mkResponse StatusInternalServerError
                 (ErrorResponse ("Print failed: " ++ Error err))
  end.

End api.

(* ===================================================================== *)
(** ** package main: choosing and starting the printer adapter *)
(* ===================================================================== *)

Module server.

(** The value of [var printerAdapter core.Printer]. *)
Inductive Adapter : Type :=
| MockAdapter (m : printer.MockPrinter)
| BLEAdapter (w : printer.World).

#[global] Instance Adapter_Printer : core.Printer Adapter :=
  {| core.PrintText text a :=
       match a with
       | MockAdapter m =>
           let (m', e) := printer.MockPrinter_PrintText text m in (MockAdapter m', e)
       | BLEAdapter w =>
           let (e, w') := printer.PrintText text w in (BLEAdapter w', e)
       end |}.

(** How [main] gets on: it stops in [logger.Fatalf] with what was
    logged before and the fatal message, it goes on to serve with an
    adapter, or it stays in [blePrinter.Connect] for ever. *)
Inductive Startup : Type :=
| Fatal (logged : list printer.Event) (msg : string)
| Running (a : Adapter)
| Waiting (logged : list printer.Event).

(** The first two lines [main] logs once the configuration is loaded. *)
Definition main_lines (cfg : config.Config) : list string :=
  ["Starting Peripage Printer Server";
   ("Printer type: " ++ config.Type_ (config.Printer cfg))%string].

(** The BLE printer [w0] made by [NewBLEPrinter], as it stands when
    [main] calls [Connect] on it: [main]'s own lines are in the log. *)
Definition before_Connect (cfg : config.Config) (w0 : printer.World)
  : printer.World :=
  printer.mkWorld (printer.b w0) (printer.scanning w0) (printer.inbox w0)
    (map printer.Log (main_lines cfg ++ ["Using BLE printer adapter"])
     ++ printer.trace w0).

(** [main] from ["Printer type"] to the end of its [switch]. *)
Definition main_adapter (cfg : config.Config) (env : printer.Stack) : Startup :=
  let type := config.Type_ (config.Printer cfg) in
  let lines := main_lines cfg in
  if String.eqb type "mock" then
    Running (MockAdapter
               (printer.mkMockPrinter
                  (map printer.Logged (lines ++ ["Using mock printer adapter"]))))
  else if String.eqb type "ble" then
    let lines' := map printer.Log (lines ++ ["Using BLE printer adapter"]) in
    match printer.NewBLEPrinter env
            (printer.mkConfig (config.DeviceName (config.Printer cfg))
                              (config.ScanTimeout (config.BLE cfg))) with
    | inr e => Fatal lines' ("Failed to initialize BLE printer: " ++ Error e)
    | inl w0 =>
        match printer.Connect env (before_Connect cfg w0) with
        | (printer.Returns (Some e), w2) =>
            Fatal (printer.trace w2) ("Failed to connect to printer: " ++ Error e)
        | (printer.Returns None, w2) => Running (BLEAdapter w2)
        | (printer.Blocks, w2) => Waiting (printer.trace w2)
        end
    end
  else
    Fatal (map printer.Log lines) ("Unknown printer type: " ++ type).


(** The [cleanup] closure [main] runs at shutdown. *)
Definition main_cleanup (env : printer.Stack) (a : Adapter) : Adapter :=
  match a with
  | MockAdapter m => MockAdapter m
  | BLEAdapter w =>
      let (_, w1) := printer.logger_Println "Disconnecting from printer..." w in
      match printer.Disconnect env w1 with
      | (Some e, w2) =>
          BLEAdapter
            (snd (printer.logger_Println
                    ("Error disconnecting from printer: " ++ Error e) w2))
      | (None, w2) => BLEAdapter w2
      end
  end.

(** Number of [device.Disconnect] calls in a trace. *)
Fixpoint disconnect_calls (t : list printer.Event) : nat :=
  match t with
  | [] => 0
  | printer.DeviceDisconnect _ :: t' => S (disconnect_calls t')
  | _ :: t' => disconnect_calls t'
  end.

(** *** Sample surroundings *)

(** No variable set. *)
Definition empty_environ : string -> string := fun _ => "".

(** A stand-in for [time.ParseDuration] that knows the two defaults. *)
Definition two_durations (s : string) : Z + error :=
  if String.eqb s "30s" then inl (30 * printer.Second)%Z
  else if String.eqb s "10s" then inl (10 * printer.Second)%Z
  else inr (Errorf "time: invalid duration").


(** A marshaller for maps given as their text. *)
Definition text_marshal (m : string) : string + error := inl m.

(** A configuration for the BLE printer with no durations given. *)
Definition ble_config : config.Config :=
  config.mkConfig (config.mkServerConfig "8080")
                  (config.mkPrinterConfig "ble" "Peripage" 0)
                  (config.mkBLEConfig 0).


(** The adapter [main] serves with under [ble_config] when one printer
    is in range. *)
Definition started_world : printer.World :=
  match main_adapter ble_config (printer.stack_with [printer.weak_printer]) with
  | Running (BLEAdapter w) => w
  | _ => printer.fresh_world
  end.

End server.


(* ===================================================================== *)
(** ** The print service *)
(* ===================================================================== *)

Section PrintServiceFacts.

Context {P : Type} `{core.Printer P}.

Lemma nonempty_eqb (text : string) : text <> "" -> String.eqb text "" = false.
Proof. intros Hne. now apply String.eqb_neq. Qed.

(** With a non-empty text the service is the printer's own call. *)
Lemma PrintService_PrintText_nonempty (text : string) (s : core.PrintService P) :
  text <> "" ->
  core.PrintService_PrintText text s =
  (core.mkPrintService (fst (core.PrintText text (core.printer s))),
   snd (core.PrintText text (core.printer s))).
Proof.
  intros Hne. unfold core.PrintService_PrintText.
  rewrite (nonempty_eqb text Hne).
  destruct (core.PrintText text (core.printer s)) as [p' e]. reflexivity.
Qed.

(** The empty text is refused before the printer is reached. *)
Lemma PrintService_PrintText_empty (s : core.PrintService P) :
  core.PrintService_PrintText "" s = (s, Some (Errorf "text cannot be empty")).
Proof. reflexivity. Qed.

End PrintServiceFacts.

(** C8.  For a non-empty text [PrintService.PrintText] returns what the
    printer's [PrintText] returns: [nil] exactly when the printer returns
    [nil], and otherwise the printer's own error value, unchanged. *)
Theorem PrintService_PrintText_propagates :
  forall (P : Type) (I : core.Printer P) (text : string) (s : core.PrintService P),
    text <> "" ->
    let ours := snd (core.PrintService_PrintText text s) in
    let theirs := snd (core.PrintText text (core.printer s)) in
    ours = theirs
    /\ (ours = None <-> theirs = None)
    /\ (forall e : error, theirs = Some e -> ours = Some e).
Proof.
  intros P I text s Hne ours theirs.
  assert (E : ours = theirs).
  { subst ours theirs. now rewrite PrintService_PrintText_nonempty. }
  split; [exact E|]. split.
  - rewrite E. tauto.
  - intros e He. now rewrite E.
Qed.

Lemma PrintService_PrintText_propagates_witness :
  snd (core.PrintService_PrintText "Test text"
         (core.NewPrintService (core.mkMock "" (Some (Errorf "printer offline")))))
  = Some (Errorf "printer offline").
Proof.
  refine (proj2 (proj2
    (PrintService_PrintText_propagates core.mockPrinter _ "Test text"
       (core.NewPrintService (core.mkMock "" (Some (Errorf "printer offline"))))
       _)) (Errorf "printer offline") _).
  - discriminate.
  - reflexivity.
Defined.

(** C9.  [PrintService.PrintText("")] returns an error and leaves the
    printer as it was, so no call reaches it; with a non-empty text the
    printer is called once, with that very text. *)
Theorem PrintService_PrintText_calls :
  forall (P : Type) (I : core.Printer P),
    (forall s : core.PrintService P,
        core.PrintService_PrintText "" s
        = (s, Some (Errorf "text cannot be empty")))
    /\ (forall s : core.PrintService (core.Recorded P),
        core.Calls (core.printer (fst (core.PrintService_PrintText "" s)))
        = core.Calls (core.printer s))
    /\ (forall (s : core.PrintService (core.Recorded P)) (text : string),
        text <> "" ->
        let s' := fst (core.PrintService_PrintText text s) in
        core.Calls (core.printer s') = core.Calls (core.printer s) ++ [text]
        /\ core.inner (core.printer s')
           = fst (core.PrintText text (core.inner (core.printer s)))).
Proof.
  intros P I. split; [|split].
  - intros s. apply PrintService_PrintText_empty.
  - intros s. reflexivity.
  - intros s text Hne s'. subst s'.
    rewrite PrintService_PrintText_nonempty by exact Hne.
    cbn. destruct (core.PrintText text (core.inner (core.printer s))) as [p' e].
    cbn. split; reflexivity.
Qed.

Lemma PrintService_PrintText_calls_witness :
  core.Calls (core.printer (fst (core.PrintService_PrintText "Hello, World!"
     (core.NewPrintService (core.mkRecorded (core.mkMock "" None) [])))))
  = ["Hello, World!"].
Proof.
  refine (proj1 (proj2 (proj2
    (PrintService_PrintText_calls core.mockPrinter _))
      (core.NewPrintService (core.mkRecorded (core.mkMock "" None) []))
      "Hello, World!" _)).
  discriminate.
Defined.

(** The test double of the unit tests remembers the text it was given. *)
Lemma mockPrinter_receives_text (text : string) (last : string) :
  text <> "" ->
  core.PrintService_PrintText text (core.NewPrintService (core.mkMock last None))
  = (core.NewPrintService (core.mkMock text None), None).
Proof.
  intros Hne. now rewrite PrintService_PrintText_nonempty.
Qed.

(* ===================================================================== *)
(** ** The BLE adapter: reading the trace *)
(* ===================================================================== *)

Section TraceFacts.

Import printer.

Lemma frames_written_app (t u : list Event) :
  frames_written (t ++ u) = frames_written t ++ frames_written u.
Proof.
  induction t as [|e t IH]; [reflexivity|].
  destruct e; cbn; rewrite IH; reflexivity.
Qed.

Lemma connect_targets_app (t u : list Event) :
  connect_targets (t ++ u) = connect_targets t ++ connect_targets u.
Proof.
  induction t as [|e t IH]; [reflexivity|].
  destruct e; cbn; rewrite IH; reflexivity.
Qed.

Lemma connect_attempts_app (t u : list Event) :
  connect_attempts (t ++ u) = connect_attempts t + connect_attempts u.
Proof.
  induction t as [|e t IH]; [reflexivity|].
  destruct e; cbn; rewrite IH; reflexivity.
Qed.

Lemma scans_started_app (t u : list Event) :
  scans_started (t ++ u) = scans_started t + scans_started u.
Proof.
  induction t as [|e t IH]; [reflexivity|].
  destruct e; cbn; rewrite IH; reflexivity.
Qed.

Lemma connect_attempts_targets (t : list Event) :
  connect_attempts t = length (connect_targets t).
Proof.
  induction t as [|e t IH]; [reflexivity|].
  destruct e; cbn; rewrite IH; reflexivity.
Qed.

(** Scanning connects to nothing and writes nothing. *)
Lemma scan_events_quiet (name : string) (rs : list bluetooth.ScanResult) :
  connect_targets (scan_events name rs) = []
  /\ frames_written (scan_events name rs) = [].
Proof.
  induction rs as [|r rs [IHc IHf]]; [split; reflexivity|].
  cbn. destruct (String.eqb (bluetooth.LocalName r) name); cbn; auto.
Qed.

Lemma scan_events_no_attempt (name : string) (rs : list bluetooth.ScanResult) :
  connect_attempts (scan_events name rs) = 0.
Proof.
  rewrite connect_attempts_targets.
  now rewrite (proj1 (scan_events_quiet name rs)).
Qed.

Lemma world_eta (w : World) :
  mkWorld (b w) (scanning w) (inbox w) (trace w) = w.
Proof. destruct w; reflexivity. Qed.

Lemma log_to_nil (w : World) : log_to w [] = w.
Proof. unfold log_to. rewrite app_nil_r. apply world_eta. Qed.

End TraceFacts.

(* ===================================================================== *)
(** ** The BLE adapter: discovery and connection *)
(* ===================================================================== *)

Section ConnectFacts.

Import printer.
Local Open Scope go_scope.

(** The scan loop under the callback of [Connect]: it logs every
    advertisement up to the first one carrying the wanted name, takes
    that one, stops the scan and looks no further.  When no
    advertisement carries the name it never ends, with the scan on. *)
Lemma deliver_Connect_callback (rs : list bluetooth.ScanResult) :
  forall (l : ScanLocals) (w : World),
    scanning w = true ->
    deliver Connect_callback rs l w =
    match first_match (deviceName (b w)) rs with
    | Some r =>
        (Returns (mkLocals r true (deviceCh l ++ [r])),
         mkWorld (b w) false (inbox w)
                 (trace w ++ scan_events (deviceName (b w)) rs))
    | None =>
        (Blocks, mkWorld (b w) true (inbox w)
                         (trace w ++ scan_events (deviceName (b w)) rs))
    end.
Proof.
  induction rs as [|r rs IH]; intros l w Hs.
  - cbn. rewrite app_nil_r, <- Hs. now rewrite world_eta.
  - cbn [deliver first_match find scan_events].
    unfold bind at 1. unfold Connect_callback at 1.
    unfold bind, logger_Println, emit, get_b, adapter_StopScan, set_scanning,
      get_scanning, ret. cbn.
    destruct (String.eqb (bluetooth.LocalName r) (deviceName (b w))) eqn:E; cbn.
    + now rewrite <- app_assoc.
    + rewrite Hs. rewrite IH by reflexivity. cbn.
      fold (first_match (deviceName (b w)) rs).
      destruct (first_match (deviceName (b w)) rs); now rewrite <- app_assoc.
Qed.

Ltac trace_eq :=
  repeat (progress (rewrite <- ?app_assoc; cbn [app])); reflexivity.

Ltac go_unfold :=
  unfold Connect, Connect_select, Connect_link, adapter_Scan, adapter_Connect,
    adapter_StopScan, performHandshake, PrintText, textToBitmap, sendBitmap,
    Disconnect, device_Disconnect, logger_Println, emit, get_b, set_device,
    set_scanning, get_scanning, bind, ret.

(** [adapter.Scan] fails: the error is wrapped and returned. *)
Lemma Connect_scan_fails (env : Stack) (w : World) (c : error) :
  scanErr env = Some c ->
  Connect env w =
  (Returns (Some (Wrapf "failed to start scan" c)),
   log_to w [Log ("Scanning for device: " ++ deviceName (b w)); AdapterScan]).
Proof.
  intros Hs. go_unfold. cbn. rewrite Hs. cbn.
  unfold log_to. now rewrite <- app_assoc.
Qed.

(** No advertisement carries the wanted name: [Connect] stays in
    [adapter.Scan], the scan running, and never reaches its [select]. *)
Lemma Connect_not_found (env : Stack) (w : World) :
  scanErr env = None ->
  first_match (deviceName (b w)) (adverts env) = None ->
  Connect env w =
  (Blocks,
   mkWorld (b w) true (inbox w)
     (trace w
      ++ [Log ("Scanning for device: " ++ deviceName (b w)); AdapterScan]
      ++ scan_events (deviceName (b w)) (adverts env))).
Proof.
  intros Hs Hf. go_unfold. cbn. rewrite Hs. cbn.
  rewrite deliver_Connect_callback by reflexivity. cbn.
  rewrite Hf. cbn. trace_eq.
Qed.

(** The first advertisement carrying the wanted name is [r], and the
    link to it is refused. *)
Lemma Connect_refused (env : Stack) (w : World) (r : bluetooth.ScanResult) (c : error) :
  scanErr env = None ->
  first_match (deviceName (b w)) (adverts env) = Some r ->
  connectErr env (connect_attempts (trace w)) (bluetooth.ResultAddress r) = Some c ->
  Connect env w =
  (Returns (Some (Wrapf "failed to connect to device" c)),
   mkWorld (b w) false (inbox w) (approach env w r)).
Proof.
  intros Hs Hf Hc. go_unfold. cbn. rewrite Hs. cbn.
  rewrite deliver_Connect_callback by reflexivity. cbn.
  rewrite Hf. cbn. unfold approach, select_events.
  destruct (doneFirst env); cbn;
    rewrite !connect_attempts_app, scan_events_no_attempt; cbn;
    rewrite !Nat.add_0_r, Hc; cbn; trace_eq.
Qed.

(** The first advertisement carrying the wanted name is [r], and the
    link to it comes up: the device is kept and the handshake passes. *)
Lemma Connect_succeeds (env : Stack) (w : World) (r : bluetooth.ScanResult) :
  scanErr env = None ->
  first_match (deviceName (b w)) (adverts env) = Some r ->
  connectErr env (connect_attempts (trace w)) (bluetooth.ResultAddress r) = None ->
  Connect env w =
  (Returns None,
   mkWorld (mkBLEPrinter (Some (bluetooth.mkDevice (bluetooth.ResultAddress r)))
                         (deviceName (b w)) (scanTimeout (b w)))
           false (inbox w)
           (approach env w r
            ++ [Log "Successfully connected to printer";
                Log "Performing handshake with printer...";
                Log "Handshake completed (placeholder)"])).
Proof.
  intros Hs Hf Hc. go_unfold. cbn. rewrite Hs. cbn.
  rewrite deliver_Connect_callback by reflexivity. cbn.
  rewrite Hf. cbn. unfold approach, select_events.
  destruct (doneFirst env); cbn;
    rewrite !connect_attempts_app, scan_events_no_attempt; cbn;
    rewrite !Nat.add_0_r, Hc; cbn; trace_eq.
Qed.

(** The buffered send of the callback finds the channel empty: the
    scan of [Connect] puts at most one result into [deviceCh]. *)
Lemma deviceCh_within_buffer (rs : list bluetooth.ScanResult) (w : World)
    (l : ScanLocals) :
  scanning w = true ->
  fst (deliver Connect_callback rs
         (mkLocals bluetooth.zeroScanResult false []) w) = Returns l ->
  length (deviceCh l) <= 1.
Proof.
  intros Hs. rewrite deliver_Connect_callback by exact Hs.
  destruct (first_match (deviceName (b w)) rs); cbn; [|discriminate].
  intros E. injection E as <-. cbn. lia.
Qed.

(** [NewBLEPrinter] with the default device name and no timeout given. *)
Lemma NewBLEPrinter_defaults :
  NewBLEPrinter (stack_with []) (mkConfig "Peripage" 0) = inl fresh_world.
Proof. reflexivity. Qed.

(** The stdout printer never fails. *)
Lemma MockPrinter_always_succeeds (text : string) (m : MockPrinter) :
  snd (MockPrinter_PrintText text m) = None
  /\ stdout (fst (MockPrinter_PrintText text m)) = stdout m ++ [text]
  /\ logged (fst (MockPrinter_PrintText text m))
     = logged m ++ ["=== MOCK PRINTER OUTPUT ==="; "=== END MOCK PRINTER OUTPUT ==="].
Proof.
  split; [reflexivity|]. unfold stdout, logged. cbn [fst MockPrinter_PrintText written].
  rewrite !flat_map_app. split; reflexivity.
Qed.

End ConnectFacts.

Section DiscoveryFacts.

Import printer.

Lemma first_match_with_signal (f : bluetooth.ScanResult -> Z) (name : string)
    (rs : list bluetooth.ScanResult) :
  first_match name (with_signal f rs)
  = option_map
      (fun r => bluetooth.mkScanResult (bluetooth.ResultAddress r) (f r)
                                       (bluetooth.LocalName r))
      (first_match name rs).
Proof.
  induction rs as [|r rs IH]; [reflexivity|].
  cbn. destruct (String.eqb (bluetooth.LocalName r) name); [reflexivity|].
  exact IH.
Qed.

Lemma scan_events_with_signal (f : bluetooth.ScanResult -> Z) (name : string)
    (rs : list bluetooth.ScanResult) :
  scan_events name (with_signal f rs) = scan_events name rs.
Proof.
  induction rs as [|r rs IH]; [reflexivity|].
  cbn [with_signal map scan_events bluetooth.LocalName bluetooth.ResultAddress].
  fold (with_signal f rs). now rewrite IH.
Qed.

(** [Connect] never reads the signal strength: heard at any other
    strengths, the same advertisements lead to the same run. *)
Lemma Connect_ignores_RSSI (f : bluetooth.ScanResult -> Z) (env : Stack) (w : World) :
  Connect (advertising env (with_signal f (adverts env))) w = Connect env w.
Proof.
  destruct (scanErr env) as [c|] eqn:Hs.
  { rewrite (Connect_scan_fails env w c Hs).
    now rewrite (Connect_scan_fails (advertising env _) w c Hs). }
  destruct (first_match (deviceName (b w)) (adverts env)) as [r|] eqn:Hf.
  - assert (Hf' : first_match (deviceName (b w))
                    (adverts (advertising env (with_signal f (adverts env))))
                  = Some (bluetooth.mkScanResult (bluetooth.ResultAddress r) (f r)
                                                 (bluetooth.LocalName r))).
    { unfold advertising. cbn [adverts]. now rewrite first_match_with_signal, Hf. }
    destruct (connectErr env (connect_attempts (trace w)) (bluetooth.ResultAddress r))
      as [c|] eqn:Hc.
    + rewrite (Connect_refused env w r c Hs Hf Hc).
      rewrite (Connect_refused (advertising env _) w _ c Hs Hf' Hc).
      unfold approach, select_events, advertising.
      cbn [adverts doneFirst bluetooth.ResultAddress bluetooth.LocalName].
      now rewrite scan_events_with_signal.
    + rewrite (Connect_succeeds env w r Hs Hf Hc).
      rewrite (Connect_succeeds (advertising env _) w _ Hs Hf' Hc).
      unfold approach, select_events, advertising.
      cbn [adverts doneFirst bluetooth.ResultAddress bluetooth.LocalName].
      now rewrite scan_events_with_signal.
  - assert (Hf' : first_match (deviceName (b w))
                    (adverts (advertising env (with_signal f (adverts env)))) = None).
    { unfold advertising. cbn [adverts]. now rewrite first_match_with_signal, Hf. }
    rewrite (Connect_not_found env w Hs Hf).
    rewrite (Connect_not_found (advertising env _) w Hs Hf').
    unfold advertising. cbn [adverts]. now rewrite scan_events_with_signal.
Qed.

(** Where an error of [Connect] comes from: the scan that did not
    start, or the link that was refused; nothing else. *)
Lemma Connect_error_origin (env : Stack) (w : World) (e : error) :
  fst (Connect env w) = Returns (Some e) ->
  (exists c, scanErr env = Some c /\ e = Wrapf "failed to start scan" c)
  \/ (exists r c,
         scanErr env = None
         /\ first_match (deviceName (b w)) (adverts env) = Some r
         /\ connectErr env (connect_attempts (trace w)) (bluetooth.ResultAddress r) = Some c
         /\ e = Wrapf "failed to connect to device" c).
Proof.
  intros He.
  destruct (scanErr env) as [c|] eqn:Hs.
  { rewrite (Connect_scan_fails env w c Hs) in He. cbn in He.
    left. exists c. split; [reflexivity|congruence]. }
  destruct (first_match (deviceName (b w)) (adverts env)) as [r|] eqn:Hf.
  - destruct (connectErr env (connect_attempts (trace w)) (bluetooth.ResultAddress r))
      as [c|] eqn:Hc.
    + rewrite (Connect_refused env w r c Hs Hf Hc) in He. cbn in He.
      right. exists r, c. repeat split; congruence.
    + rewrite (Connect_succeeds env w r Hs Hf Hc) in He. discriminate.
  - rewrite (Connect_not_found env w Hs Hf) in He. discriminate.
Qed.

(** [Connect] returns or waits for ever, by whether an advertisement
    carries the name once the scan has started. *)
Lemma Connect_blocks_iff (env : Stack) (w : World) :
  fst (Connect env w) = Blocks
  <-> (scanErr env = None
       /\ first_match (deviceName (b w)) (adverts env) = None).
Proof.
  split.
  - intros Hb.
    destruct (scanErr env) as [c|] eqn:Hs.
    { rewrite (Connect_scan_fails env w c Hs) in Hb. discriminate. }
    split; [reflexivity|].
    destruct (first_match (deviceName (b w)) (adverts env)) as [r|] eqn:Hf;
      [|reflexivity].
    destruct (connectErr env (connect_attempts (trace w)) (bluetooth.ResultAddress r))
      as [c|] eqn:Hc.
    + rewrite (Connect_refused env w r c Hs Hf Hc) in Hb. discriminate.
    + rewrite (Connect_succeeds env w r Hs Hf Hc) in Hb. discriminate.
  - intros [Hs Hf]. now rewrite (Connect_not_found env w Hs Hf).
Qed.

(** [Connect] calls [adapter.Connect] at most once. *)
Lemma Connect_attempts_bound (env : Stack) (w : World) :
  connect_attempts (trace (snd (Connect env w))) <= connect_attempts (trace w) + 1.
Proof.
  destruct (scanErr env) as [c|] eqn:Hs.
  { rewrite (Connect_scan_fails env w c Hs). cbn.
    rewrite connect_attempts_app. cbn. lia. }
  destruct (first_match (deviceName (b w)) (adverts env)) as [r|] eqn:Hf.
  - destruct (connectErr env (connect_attempts (trace w)) (bluetooth.ResultAddress r))
      as [c|] eqn:Hc.
    + rewrite (Connect_refused env w r c Hs Hf Hc). cbn. unfold approach.
      rewrite !connect_attempts_app, scan_events_no_attempt.
      unfold select_events. destruct (doneFirst env); cbn; lia.
    + rewrite (Connect_succeeds env w r Hs Hf Hc). cbn. unfold approach.
      rewrite !connect_attempts_app, scan_events_no_attempt.
      unfold select_events. destruct (doneFirst env); cbn; lia.
  - rewrite (Connect_not_found env w Hs Hf). cbn [snd trace].
    rewrite connect_attempts_app. cbn [app connect_attempts].
    rewrite scan_events_no_attempt. lia.
Qed.

(** A refused link is reported with its cause intact. *)
Lemma Connect_keeps_cause (env : Stack) (w : World)
    (r : bluetooth.ScanResult) (c : error) :
  scanErr env = None ->
  first_match (deviceName (b w)) (adverts env) = Some r ->
  connectErr env (connect_attempts (trace w)) (bluetooth.ResultAddress r) = Some c ->
  exists e, fst (Connect env w) = Returns (Some e)
            /\ Unwrap e = Some c
            /\ root_cause e = root_cause c
            /\ Error e = String.append "failed to connect to device: " (Error c).
Proof.
  intros Hs Hf Hc. rewrite (Connect_refused env w r c Hs Hf Hc).
  eexists. split; [reflexivity|]. repeat split.
Qed.

(** The first advertisement carrying the name splits the list: before
    it none carries the name, and the scan logs the ones before it,
    then it, then stops. *)
Lemma first_match_split (name : string) (rs : list bluetooth.ScanResult)
    (r : bluetooth.ScanResult) :
  first_match name rs = Some r ->
  exists pre post,
    rs = pre ++ r :: post
    /\ first_match name pre = None
    /\ String.eqb (bluetooth.LocalName r) name = true
    /\ scan_events name rs = map found_log pre ++ [found_log r; AdapterStopScan].
Proof.
  induction rs as [|x rs IH]; [discriminate|].
  cbn [first_match find scan_events].
  destruct (String.eqb (bluetooth.LocalName x) name) eqn:E.
  - intros Hx. injection Hx as <-. exists [], rs. repeat split. exact E.
  - intros Hx. destruct (IH Hx) as [pre [post [Hrs [Hpre [Hr Hev]]]]].
    exists (x :: pre), post. subst rs. cbn [first_match find map app].
    rewrite E. fold (first_match name pre). repeat split; try assumption.
    now rewrite Hev.
Qed.

(** What is advertised after the first match is never looked at. *)
Lemma first_match_prefix (name : string) (pre post : list bluetooth.ScanResult)
    (r : bluetooth.ScanResult) :
  first_match name pre = None ->
  String.eqb (bluetooth.LocalName r) name = true ->
  first_match name (pre ++ r :: post) = Some r
  /\ scan_events name (pre ++ r :: post)
     = map found_log pre ++ [found_log r; AdapterStopScan].
Proof.
  intros Hpre Hr. induction pre as [|x pre IH].
  - cbn. rewrite Hr. split; reflexivity.
  - cbn [first_match find] in Hpre. cbn [app first_match find scan_events map].
    destruct (String.eqb (bluetooth.LocalName x) name) eqn:E; [discriminate|].
    destruct (IH Hpre) as [Hf Hev]. split; [exact Hf|]. now rewrite Hev.
Qed.

(** [Connect] is the same whatever is advertised after the first match. *)
Lemma Connect_ignores_later (env : Stack) (w : World)
    (pre post post' : list bluetooth.ScanResult) (r : bluetooth.ScanResult) :
  scanErr env = None ->
  adverts env = pre ++ r :: post ->
  first_match (deviceName (b w)) pre = None ->
  String.eqb (bluetooth.LocalName r) (deviceName (b w)) = true ->
  Connect (advertising env (pre ++ r :: post')) w = Connect env w.
Proof.
  intros Hs Ha Hpre Hr.
  destruct (first_match_prefix _ pre post r Hpre Hr) as [Hf Hev].
  destruct (first_match_prefix _ pre post' r Hpre Hr) as [Hf' Hev'].
  rewrite <- Ha in Hf, Hev.
  destruct (connectErr env (connect_attempts (trace w)) (bluetooth.ResultAddress r))
    as [c|] eqn:Hc.
  - rewrite (Connect_refused env w r c Hs Hf Hc).
    rewrite (Connect_refused (advertising env _) w r c Hs Hf' Hc).
    unfold approach, select_events, advertising. cbn [adverts doneFirst].
    now rewrite Hev, Hev'.
  - rewrite (Connect_succeeds env w r Hs Hf Hc).
    rewrite (Connect_succeeds (advertising env _) w r Hs Hf' Hc).
    unfold approach, select_events, advertising. cbn [adverts doneFirst].
    now rewrite Hev, Hev'.
Qed.

Lemma approach_targets (env : Stack) (w : World) (r : bluetooth.ScanResult) :
  connect_targets (approach env w r)
  = connect_targets (trace w) ++ [bluetooth.ResultAddress r].
Proof.
  unfold approach. rewrite !connect_targets_app.
  rewrite (proj1 (scan_events_quiet _ _)).
  unfold select_events. destruct (doneFirst env); reflexivity.
Qed.

End DiscoveryFacts.

(* ===================================================================== *)
(** ** The BLE adapter: the properties *)
(* ===================================================================== *)

Section AdapterProperties.

Import printer.

(** C1, as the code has it.  For every text [textToBitmap] fails: it
    logs one line and returns an empty byte slice together with the
    error "bitmap rendering not yet implemented"; the slice is no image
    of one row or more. *)
Theorem textToBitmap_not_implemented :
  forall (text : string) (w : World),
    textToBitmap text w
    = (([], Some (Errorf "bitmap rendering not yet implemented")),
       log_to w [Log "Converting text to bitmap (placeholder)"])
    /\ ~ is_bitmap_image (fst (fst (textToBitmap text w))).
Proof.
  intros text w. split; [reflexivity|].
  cbn. intros [rows [Hrows Hlen]]. cbn in Hlen.
  destruct rows; [lia | discriminate].
Qed.

(** C1 fails on the empty text: the call does not succeed with an
    image of at least one row. *)
Lemma textToBitmap_empty_text_fails :
  ~ (snd (fst (textToBitmap "" connected_world)) = None
     /\ is_bitmap_image (fst (fst (textToBitmap "" connected_world)))).
Proof. intros [Hnil _]. discriminate Hnil. Qed.

(** C2, as the code has it.  For every bitmap [sendBitmap] logs the
    byte count and returns the error "bitmap sending not yet
    implemented"; it writes no packet to the printer. *)
Theorem sendBitmap_not_implemented :
  forall (bitmap : list byte) (w : World),
    sendBitmap bitmap w
    = (Some (Errorf "bitmap sending not yet implemented"),
       log_to w [Log ("Sending " ++ itoa (length bitmap)
                      ++ " bytes to printer (placeholder)")])
    /\ frames_written (trace (snd (sendBitmap bitmap w)))
       = frames_written (trace w).
Proof.
  intros bitmap w. split; [reflexivity|].
  cbn. rewrite frames_written_app. cbn. apply app_nil_r.
Qed.

(** C2 fails on a 2000-byte image: no frame is written, not four. *)
Lemma sendBitmap_2000_bytes_no_frames :
  length (repeat x00 2000) = 2000
  /\ frames_written (trace (snd (sendBitmap (repeat x00 2000) connected_world))) = []
  /\ length (frames_written
               (trace (snd (sendBitmap (repeat x00 2000) connected_world)))) <> 4
  /\ fst (sendBitmap (repeat x00 2000) connected_world)
     = Some (Errorf "bitmap sending not yet implemented").
Proof.
  split; [apply repeat_length|].
  split; [vm_compute; reflexivity|].
  split; [vm_compute; discriminate|reflexivity].
Qed.

(** [PrintText] on a connected printer always stops at the renderer. *)
Lemma PrintText_connected (text : string) (w : World) (d : bluetooth.Device) :
  device (b w) = Some d ->
  PrintText text w
  = (Some (Wrapf "failed to convert text to bitmap"
                 (Errorf "bitmap rendering not yet implemented")),
     log_to w [Log ("Printing text: " ++ text);
               Log "Converting text to bitmap (placeholder)"]).
Proof.
  intros Hd. unfold PrintText, bind, get_b. rewrite Hd. cbn.
  unfold log_to. now rewrite <- app_assoc.
Qed.

(** So [PrintText] of the BLE adapter never returns [nil]. *)
Lemma BLE_PrintText_never_succeeds (text : string) (w : World) :
  fst (PrintText text w) <> None.
Proof.
  unfold PrintText, bind, get_b. destruct (device (b w)); discriminate.
Qed.

(** The print service over the BLE adapter hands that error on. *)
Lemma PrintService_over_BLE (text : string) (w : World) (d : bluetooth.Device) :
  text <> "" ->
  device (b w) = Some d ->
  snd (core.PrintService_PrintText text (core.NewPrintService w))
  = Some (Wrapf "failed to convert text to bitmap"
                (Errorf "bitmap rendering not yet implemented")).
Proof.
  intros Hne Hd. rewrite PrintService_PrintText_nonempty by exact Hne.
  cbn [snd core.printer core.NewPrintService core.PrintText BLEPrinter_Printer].
  now rewrite (PrintText_connected text w d Hd).
Qed.

(** C3, as the code has it.  [PrintText] on a printer with no device
    fails at once with "not connected to printer" and does nothing
    else: no scan, no connection, no handshake.  The chain is run by
    [Connect] alone.  When the scan cannot start [Connect] returns
    "failed to start scan" wrapping the cause, when the link to the
    device found is refused it returns "failed to connect to device"
    wrapping the cause, and it returns no other error. *)
Theorem PrintText_requires_connection :
  forall (text : string) (env : Stack) (w : World),
    (device (b w) = None ->
     PrintText text w = (Some (Errorf "not connected to printer"), w))
    /\ (forall c : error,
           scanErr env = Some c ->
           fst (Connect env w) = Returns (Some (Wrapf "failed to start scan" c)))
    /\ (forall (r : bluetooth.ScanResult) (c : error),
           scanErr env = None ->
           first_match (deviceName (b w)) (adverts env) = Some r ->
           connectErr env (connect_attempts (trace w))
                      (bluetooth.ResultAddress r) = Some c ->
           fst (Connect env w)
           = Returns (Some (Wrapf "failed to connect to device" c)))
    /\ (forall e : error,
           fst (Connect env w) = Returns (Some e) ->
           (exists c, scanErr env = Some c /\ e = Wrapf "failed to start scan" c)
           \/ (exists r c,
                  scanErr env = None
                  /\ first_match (deviceName (b w)) (adverts env) = Some r
                  /\ connectErr env (connect_attempts (trace w))
                                (bluetooth.ResultAddress r) = Some c
                  /\ e = Wrapf "failed to connect to device" c)).
Proof.
  intros text env w. split; [|split; [|split]].
  - intros Hd. unfold PrintText, bind, get_b. now rewrite Hd.
  - intros c Hs. now rewrite (Connect_scan_fails env w c Hs).
  - intros r c Hs Hf Hc. now rewrite (Connect_refused env w r c Hs Hf Hc).
  - intros e. apply Connect_error_origin.
Qed.

Lemma PrintText_requires_connection_witness :
  PrintText "Hello" fresh_world
  = (Some (Errorf "not connected to printer"), fresh_world)
  /\ fst (Connect flaky_stack fresh_world)
     = Returns (Some (Wrapf "failed to connect to device"
                            (Errorf "connection refused"))).
Proof.
  split.
  - apply (proj1 (PrintText_requires_connection
                    "Hello" (stack_with [weak_printer]) fresh_world)).
    reflexivity.
  - apply (proj1 (proj2 (proj2 (PrintText_requires_connection
                                  "Hello" flaky_stack fresh_world)))
                 weak_printer (Errorf "connection refused")); reflexivity.
Defined.

(** C3 fails with a printer in range: [Connect] would succeed, yet
    [PrintText] on the unconnected adapter returns its error without
    having started a scan. *)
Lemma PrintText_does_not_connect :
  fst (Connect (stack_with [weak_printer]) fresh_world) = Returns None
  /\ fst (PrintText "Hello" fresh_world)
     = Some (Errorf "not connected to printer")
  /\ scans_started (trace (snd (PrintText "Hello" fresh_world))) = 0
  /\ connect_attempts (trace (snd (PrintText "Hello" fresh_world))) = 0.
Proof. repeat split; reflexivity. Qed.

(** C4, as the code has it.  The first advertisement whose name is the
    configured device name is the one [Connect] connects to, and the
    scan is stopped at that advertisement: [Connect] comes back from
    the scan with the adapter no longer scanning, the trace shows the
    advertisements before the match, then the match, then [StopScan],
    and whatever is advertised after the match is never looked at.
    The signal strength is never read, so hearing the same
    advertisements at other strengths changes nothing. *)
Theorem Connect_takes_first_match :
  forall (env : Stack) (w : World),
    (forall r : bluetooth.ScanResult,
        scanErr env = None ->
        first_match (deviceName (b w)) (adverts env) = Some r ->
        connect_targets (trace (snd (Connect env w)))
        = connect_targets (trace w) ++ [bluetooth.ResultAddress r]
        /\ (fst (Connect env w) = Returns None ->
            device (b (snd (Connect env w)))
            = Some (bluetooth.mkDevice (bluetooth.ResultAddress r)))
        /\ fst (Connect env w) <> Blocks
        /\ scanning (snd (Connect env w)) = false
        /\ exists pre post : list bluetooth.ScanResult,
            adverts env = pre ++ r :: post
            /\ first_match (deviceName (b w)) pre = None
            /\ trace (snd (Connect env w))
               = trace w
                 ++ [Log ("Scanning for device: " ++ deviceName (b w)); AdapterScan]
                 ++ map found_log pre
                 ++ [found_log r; AdapterStopScan]
                 ++ select_events env r
                 ++ [AdapterConnect (bluetooth.ResultAddress r)]
                 ++ match fst (Connect env w) with
                    | Returns None =>
                        [Log "Successfully connected to printer";
                         Log "Performing handshake with printer...";
                         Log "Handshake completed (placeholder)"]
                    | _ => []
                    end
            /\ (forall post' : list bluetooth.ScanResult,
                   Connect (advertising env (pre ++ r :: post')) w
                   = Connect env w))
    /\ (forall f : bluetooth.ScanResult -> Z,
           Connect (advertising env (with_signal f (adverts env))) w
           = Connect env w).
Proof.
  intros env w. split.
  - intros r Hs Hf.
    destruct (first_match_split _ _ _ Hf) as [pre [post [Ha [Hpre [Hr Hev]]]]].
    assert (Hlater : forall post',
               Connect (advertising env (pre ++ r :: post')) w = Connect env w).
    { intros post'. exact (Connect_ignores_later env w pre post post' r Hs Ha Hpre Hr). }
    destruct (connectErr env (connect_attempts (trace w)) (bluetooth.ResultAddress r))
      as [c|] eqn:Hc.
    + rewrite (Connect_refused env w r c Hs Hf Hc) in *. cbn [fst snd trace scanning].
      split; [apply approach_targets|]. split; [discriminate|].
      split; [discriminate|]. split; [reflexivity|].
      exists pre, post. split; [exact Ha|]. split; [exact Hpre|].
      split; [|exact Hlater].
      unfold approach. rewrite Hev. rewrite <- !app_assoc. reflexivity.
    + rewrite (Connect_succeeds env w r Hs Hf Hc) in *.
      cbn [fst snd trace b device scanning].
      split; [rewrite connect_targets_app, approach_targets; cbn; apply app_nil_r|].
      split; [reflexivity|]. split; [discriminate|]. split; [reflexivity|].
      exists pre, post. split; [exact Ha|]. split; [exact Hpre|].
      split; [|exact Hlater].
      unfold approach. rewrite Hev. rewrite <- !app_assoc. reflexivity.
  - intros f. apply Connect_ignores_RSSI.
Qed.

Lemma Connect_takes_first_match_witness :
  connect_targets
    (trace (snd (Connect (stack_with [headphones; weak_printer; strong_printer])
                         fresh_world)))
  = connect_targets (trace fresh_world)
    ++ [bluetooth.ResultAddress weak_printer].
Proof.
  apply (proj1 (proj1 (Connect_takes_first_match
                  (stack_with [headphones; weak_printer; strong_printer])
                  fresh_world) weak_printer eq_refl eq_refl)).
Defined.

(** C4 fails with two printers of the wanted name in range: the second
    is heard louder, the first is taken. *)
Lemma Connect_prefers_first_over_strongest :
  let env := stack_with [weak_printer; strong_printer] in
  strongest "Peripage" (adverts env) = Some (bluetooth.RSSI strong_printer)
  /\ (bluetooth.RSSI weak_printer < bluetooth.RSSI strong_printer)%Z
  /\ connect_targets (trace (snd (Connect env fresh_world)))
     = [bluetooth.ResultAddress weak_printer]
  /\ device (b (snd (Connect env fresh_world)))
     = Some (bluetooth.mkDevice (bluetooth.ResultAddress weak_printer))
  /\ bluetooth.ResultAddress weak_printer <> bluetooth.ResultAddress strong_printer.
Proof.
  cbv zeta. repeat split; try reflexivity. discriminate.
Qed.

(** C5, as the code has it.  [Connect] calls [adapter.Connect] at most
    once: there is no retry and no backoff.  When that one attempt
    fails, [Connect] returns "failed to connect to device" wrapping the
    cause, and keeps no device. *)
Theorem Connect_single_attempt :
  forall (env : Stack) (w : World),
    connect_attempts (trace (snd (Connect env w)))
    <= connect_attempts (trace w) + 1
    /\ (forall (r : bluetooth.ScanResult) (c : error),
           scanErr env = None ->
           first_match (deviceName (b w)) (adverts env) = Some r ->
           connectErr env (connect_attempts (trace w))
                      (bluetooth.ResultAddress r) = Some c ->
           fst (Connect env w)
           = Returns (Some (Wrapf "failed to connect to device" c))
           /\ connect_attempts (trace (snd (Connect env w)))
              = connect_attempts (trace w) + 1
           /\ device (b (snd (Connect env w))) = device (b w)).
Proof.
  intros env w. split; [apply Connect_attempts_bound|].
  intros r c Hs Hf Hc.
  rewrite (Connect_refused env w r c Hs Hf Hc). cbn [fst snd trace b].
  split; [reflexivity|]. split; [|reflexivity].
  rewrite !connect_attempts_targets, approach_targets, length_app. reflexivity.
Qed.

Lemma Connect_single_attempt_witness :
  fst (Connect flaky_stack fresh_world)
  = Returns (Some (Wrapf "failed to connect to device" (Errorf "connection refused"))).
Proof.
  apply (proj2 (Connect_single_attempt flaky_stack fresh_world)
               weak_printer (Errorf "connection refused")); reflexivity.
Defined.

(** C5 fails where a second attempt would get through: the first is
    refused, no second one is made, and the refusal is returned. *)
Lemma Connect_does_not_retry :
  connectErr flaky_stack 0 (bluetooth.ResultAddress weak_printer)
  = Some (Errorf "connection refused")
  /\ connectErr flaky_stack 1 (bluetooth.ResultAddress weak_printer) = None
  /\ connect_attempts (trace (snd (Connect flaky_stack fresh_world))) = 1
  /\ fst (Connect flaky_stack fresh_world)
     = Returns (Some (Wrapf "failed to connect to device"
                            (Errorf "connection refused"))).
Proof. repeat split; reflexivity. Qed.

(** C6, as the code has it.  [performHandshake] logs two lines and
    returns [nil] whatever the device has sent: it reads no response,
    and [Connect] never returns a handshake error. *)
Theorem performHandshake_always_succeeds :
  forall (env : Stack) (w : World),
    performHandshake w
    = (None, log_to w [Log "Performing handshake with printer...";
                       Log "Handshake completed (placeholder)"])
    /\ inbox (snd (performHandshake w)) = inbox w
    /\ (forall c : error,
           fst (Connect env w) <> Returns (Some (Wrapf "handshake failed" c))).
Proof.
  intros env w. split; [|split].
  - unfold performHandshake, logger_Println, emit, bind, ret, log_to. cbn.
    now rewrite <- app_assoc.
  - reflexivity.
  - intros c Hc.
    destruct (Connect_error_origin env w _ Hc)
      as [[c' [_ E]] | [r [c' [_ [_ [_ E]]]]]]; discriminate E.
Qed.

(** C6 fails: the handshake succeeds after the reply [0x00] and after
    the reply [0xFF] alike, leaving either unread.  The two differ, so
    whatever pattern stands for "ready", one of them does not match it. *)
Lemma performHandshake_accepts_any_reply :
  [x00] <> [xff]
  /\ inbox (world_replying [x00]) = [[x00]]
  /\ inbox (world_replying [xff]) = [[xff]]
  /\ fst (performHandshake (world_replying [x00])) = None
  /\ fst (performHandshake (world_replying [xff])) = None
  /\ inbox (snd (performHandshake (world_replying [x00]))) = [[x00]]
  /\ inbox (snd (performHandshake (world_replying [xff]))) = [[xff]].
Proof. repeat split; try reflexivity. discriminate. Qed.

(** C10.  [Disconnect] with no device returns [nil] and does nothing;
    a [Disconnect] that returns [nil] leaves no device, so the next
    [Disconnect] returns [nil] too and does nothing. *)
Theorem Disconnect_idempotent :
  forall (env : Stack) (w w' : World),
    (device (b w) = None -> Disconnect env w = (None, w))
    /\ (Disconnect env w = (None, w') ->
        device (b w') = None /\ Disconnect env w' = (None, w')).
Proof.
  intros env w w'.
  assert (Hnone : forall v, device (b v) = None -> Disconnect env v = (None, v)).
  { intros v Hv. unfold Disconnect, bind, get_b. now rewrite Hv. }
  split; [apply Hnone|].
  intros Hd.
  assert (Hw' : device (b w') = None).
  { revert Hd. unfold Disconnect, device_Disconnect, logger_Println, emit,
      set_device, bind, get_b, ret.
    destruct (device (b w)) as [d|] eqn:Hdev; cbn.
    - destruct (disconnectErr env (bluetooth.DeviceAddress d)); cbn.
      + discriminate.
      + intros E. injection E as <-. reflexivity.
    - intros E. injection E as <-. exact Hdev. }
  split; [exact Hw' | now apply Hnone].
Qed.

Lemma Disconnect_idempotent_witness :
  device (b (snd (Disconnect (stack_with []) connected_world))) = None
  /\ Disconnect (stack_with []) (snd (Disconnect (stack_with []) connected_world))
     = (None, snd (Disconnect (stack_with []) connected_world)).
Proof.
  apply (proj2 (Disconnect_idempotent (stack_with []) connected_world
                  (snd (Disconnect (stack_with []) connected_world)))).
  reflexivity.
Defined.

End AdapterProperties.

(* ===================================================================== *)
(** ** The BLE adapter: overlapping calls of PrintText *)
(* ===================================================================== *)

Section OverlapFacts.

Import printer.

(** The statement-by-statement reading of [PrintText] agrees with
    [PrintText] itself: four steps from the entry reach its return. *)
Lemma PrintText_as_steps (text : string) (w : World) :
  run_call 4 (AtEntry text) w
  = (Returned (fst (PrintText text w)), snd (PrintText text w)).
Proof.
  unfold run_call, PrintText_step, PrintText, bind, get_b.
  destruct (device (b w)); reflexivity.
Qed.

(** No step of [PrintText] writes a field of the receiver. *)
Lemma PrintText_step_keeps_b (pc : Pc) (w : World) :
  b (snd (PrintText_step pc w)) = b w.
Proof.
  destruct pc; cbn; try reflexivity.
  unfold bind, get_b. destruct (device (b w)); reflexivity.
Qed.

Lemma PrintText_step_on_track (pc : Pc) (w : World) :
  on_track (device (b w)) pc ->
  on_track (device (b w)) (fst (PrintText_step pc w)).
Proof.
  destruct pc as [text|text|bitmap| |r]; cbn; try tauto.
  - intros _. unfold bind, get_b.
    destruct (device (b w)) eqn:Hd; cbn; [discriminate|reflexivity].
  - intros Hd. destruct (device (b w)); [reflexivity|congruence].
Qed.

Lemma run_schedule_cons (g : Goroutine) (s : list Goroutine)
    (c : Pc * Pc) (w : World) :
  run_schedule (g :: s) c w
  = run_schedule s (fst (sched_step g c w)) (snd (sched_step g c w)).
Proof.
  cbn [run_schedule]. unfold bind.
  destruct (sched_step g c w); reflexivity.
Qed.

Lemma sched_step_on_track (g : Goroutine) (c : Pc * Pc) (w : World) :
  on_track (device (b w)) (fst c) ->
  on_track (device (b w)) (snd c) ->
  on_track (device (b w)) (fst (fst (sched_step g c w)))
  /\ on_track (device (b w)) (snd (fst (sched_step g c w)))
  /\ b (snd (sched_step g c w)) = b w.
Proof.
  destruct c as [pc1 pc2]. cbn [fst snd]. intros H1 H2.
  destruct g; unfold sched_step, bind, ret; cbn [fst snd].
  - pose proof (PrintText_step_keeps_b pc1 w) as Hb.
    pose proof (PrintText_step_on_track pc1 w H1) as H1'.
    destruct (PrintText_step pc1 w) as [pc1' w1]. cbn [fst snd] in *. auto.
  - pose proof (PrintText_step_keeps_b pc2 w) as Hb.
    pose proof (PrintText_step_on_track pc2 w H2) as H2'.
    destruct (PrintText_step pc2 w) as [pc2' w1]. cbn [fst snd] in *. auto.
Qed.

Lemma run_schedule_on_track (s : list Goroutine) :
  forall (c : Pc * Pc) (w : World),
    on_track (device (b w)) (fst c) ->
    on_track (device (b w)) (snd c) ->
    on_track (device (b w)) (fst (fst (run_schedule s c w)))
    /\ on_track (device (b w)) (snd (fst (run_schedule s c w)))
    /\ b (snd (run_schedule s c w)) = b w.
Proof.
  induction s as [|g s IH]; intros c w H1 H2.
  - cbn. auto.
  - rewrite run_schedule_cons.
    destruct (sched_step_on_track g c w H1 H2) as [H1' [H2' Hb]].
    rewrite <- Hb in H1', H2' |- *. now apply IH.
Qed.

(** A call that is on track returns within two more steps of its own. *)
Lemma on_track_finishes (pc : Pc) (w : World) :
  on_track (device (b w)) pc ->
  fst (run_call 2 pc w) = Returned (alone (device (b w))).
Proof.
  destruct pc as [text|text|bitmap| |r]; cbn [on_track]; try tauto.
  - intros _. unfold run_call, PrintText_step, bind, get_b.
    destruct (device (b w)); reflexivity.
  - intros Hd. cbn. destruct (device (b w)); [reflexivity|congruence].
  - intros ->. reflexivity.
Qed.

(** C7, as the code has it.  The adapter keeps no record of a print in
    progress and has no "busy" error.  However two [PrintText] calls on
    one printer interleave, each returns what the plain call returns:
    "not connected to printer" without a device, the renderer's error
    with one.  Wherever a schedule has left the two calls, the second
    one reaches its return within two more steps of its own; nothing
    blocks it.  On a connected printer the first call is in flight
    after its first step, and the second call is let in all the same. *)
Theorem PrintText_overlap_not_refused :
  forall (text1 text2 : string) (w : World),
    (forall (s : list Goroutine) (r : option error),
        result_of (fst (fst (run_schedule s (AtEntry text1, AtEntry text2) w))) = Some r
        \/ result_of (snd (fst (run_schedule s (AtEntry text1, AtEntry text2) w))) = Some r ->
        r = fst (PrintText text2 w))
    /\ (forall s : list Goroutine,
           fst (run_call 2
                  (snd (fst (run_schedule s (AtEntry text1, AtEntry text2) w)))
                  (snd (run_schedule s (AtEntry text1, AtEntry text2) w)))
           = Returned (fst (PrintText text2 w)))
    /\ fst (PrintText text2 w) = alone (device (b w))
    /\ (forall d : bluetooth.Device,
           device (b w) = Some d ->
           in_flight (fst (fst (run_schedule [FirstCall]
                                  (AtEntry text1, AtEntry text2) w))) = true).
Proof.
  intros text1 text2 w.
  assert (Halone : fst (PrintText text2 w) = alone (device (b w))).
  { unfold PrintText, bind, get_b. destruct (device (b w)); reflexivity. }
  rewrite Halone. split; [|split; [|split]].
  - intros s r Hr.
    destruct (run_schedule_on_track s (AtEntry text1, AtEntry text2) w I I)
      as [H1 [H2 _]].
    destruct Hr as [Hr|Hr].
    + destruct (fst (fst (run_schedule s (AtEntry text1, AtEntry text2) w)));
        cbn in Hr; try discriminate. injection Hr as <-. exact H1.
    + destruct (snd (fst (run_schedule s (AtEntry text1, AtEntry text2) w)));
        cbn in Hr; try discriminate. injection Hr as <-. exact H2.
  - intros s.
    destruct (run_schedule_on_track s (AtEntry text1, AtEntry text2) w I I)
      as [_ [H2 Hb]].
    rewrite <- Hb in H2 |- *. now apply on_track_finishes.
  - reflexivity.
  - intros d Hd. cbn. unfold bind, get_b. rewrite Hd. reflexivity.
Qed.

Lemma PrintText_overlap_not_refused_witness :
  in_flight (fst (fst (run_schedule [FirstCall]
                         (AtEntry "one", AtEntry "two") connected_world))) = true.
Proof.
  apply (proj2 (proj2 (proj2
           (PrintText_overlap_not_refused "one" "two" connected_world)))
               (bluetooth.mkDevice "C0:FF:EE:00:00:01")).
  reflexivity.
Defined.

(** C7 fails on a connected printer: with a first call in flight, the
    second call is let past the entry, logs its text, goes to the
    renderer and returns the renderer's error, the same result as
    without the first call. *)
Lemma second_PrintText_is_let_in :
  let started := run_schedule [FirstCall] (AtEntry "one", AtEntry "two")
                              connected_world in
  let both := run_schedule [FirstCall; SecondCall; SecondCall]
                           (AtEntry "one", AtEntry "two") connected_world in
  in_flight (fst (fst started)) = true
  /\ in_flight (fst (fst both)) = true
  /\ snd (fst both)
     = Returned (Some (Wrapf "failed to convert text to bitmap"
                             (Errorf "bitmap rendering not yet implemented")))
  /\ snd (fst both) = Returned (fst (PrintText "two" connected_world))
  /\ trace (snd both)
     = trace connected_world
       ++ [Log "Printing text: one";
           Log "Printing text: two";
           Log "Converting text to bitmap (placeholder)"].
Proof. cbv zeta. repeat split; reflexivity. Qed.

(** The message of the error a second, overlapping call gets. *)
Lemma second_PrintText_message :
  option_map Error (fst (PrintText "two" connected_world))
  = Some "failed to convert text to bitmap: bitmap rendering not yet implemented".
Proof. reflexivity. Qed.

End OverlapFacts.

(* ===================================================================== *)
(** ** The BLE adapter: further properties *)
(* ===================================================================== *)

Section AdapterMore.

Import printer.

Lemma disconnect_calls_app (t u : list Event) :
  server.disconnect_calls (t ++ u)
  = server.disconnect_calls t + server.disconnect_calls u.
Proof.
  induction t as [|e t IH]; [reflexivity|].
  destruct e; cbn; rewrite IH; reflexivity.
Qed.

Lemma scan_events_calm (name : string) (rs : list bluetooth.ScanResult) :
  scans_started (scan_events name rs) = 0
  /\ server.disconnect_calls (scan_events name rs) = 0.
Proof.
  induction rs as [|r rs [IHs IHd]]; [split; reflexivity|].
  cbn. destruct (String.eqb (bluetooth.LocalName r) name); cbn; auto.
Qed.

(** What [Connect] adds to the trace: one scan, no write, no disconnect. *)
Lemma Connect_trace (env : Stack) (w : World) :
  exists evs : list Event,
    trace (snd (Connect env w)) = trace w ++ evs
    /\ scans_started evs = 1
    /\ frames_written evs = []
    /\ server.disconnect_calls evs = 0.
Proof.
  destruct (scanErr env) as [c|] eqn:Hs.
  { rewrite (Connect_scan_fails env w c Hs). cbn [snd log_to trace].
    eexists. split; [reflexivity|]. repeat split. }
  destruct (first_match (deviceName (b w)) (adverts env)) as [r|] eqn:Hf.
  - destruct (connectErr env (connect_attempts (trace w)) (bluetooth.ResultAddress r))
      as [c|] eqn:Hc.
    + rewrite (Connect_refused env w r c Hs Hf Hc). cbn [snd trace].
      unfold approach. eexists. split; [reflexivity|].
      rewrite !scans_started_app, !frames_written_app, !disconnect_calls_app.
      rewrite (proj1 (scan_events_calm _ _)), (proj2 (scan_events_calm _ _)),
        (proj2 (scan_events_quiet _ _)).
      unfold select_events. destruct (doneFirst env); repeat split.
    + rewrite (Connect_succeeds env w r Hs Hf Hc). cbn [snd trace].
      unfold approach. rewrite <- app_assoc. eexists. split; [reflexivity|].
      rewrite !scans_started_app, !frames_written_app, !disconnect_calls_app.
      rewrite (proj1 (scan_events_calm _ _)), (proj2 (scan_events_calm _ _)),
        (proj2 (scan_events_quiet _ _)).
      unfold select_events. destruct (doneFirst env); repeat split.
  - rewrite (Connect_not_found env w Hs Hf). cbn [snd trace].
    eexists. split; [reflexivity|].
    rewrite !scans_started_app, !frames_written_app, !disconnect_calls_app.
    rewrite (proj1 (scan_events_calm _ _)), (proj2 (scan_events_calm _ _)),
      (proj2 (scan_events_quiet _ _)).
    repeat split.
Qed.

(** [Connect] returns [nil] exactly under these three conditions. *)
Lemma Connect_nil_iff (env : Stack) (w : World) :
  fst (Connect env w) = Returns None
  <-> (scanErr env = None
       /\ exists r : bluetooth.ScanResult,
           first_match (deviceName (b w)) (adverts env) = Some r
           /\ connectErr env (connect_attempts (trace w))
                         (bluetooth.ResultAddress r) = None).
Proof.
  split.
  - intros Hnil.
    destruct (scanErr env) as [c|] eqn:Hs.
    { rewrite (Connect_scan_fails env w c Hs) in Hnil. discriminate. }
    split; [reflexivity|].
    destruct (first_match (deviceName (b w)) (adverts env)) as [r|] eqn:Hf.
    + exists r. split; [reflexivity|].
      destruct (connectErr env (connect_attempts (trace w)) (bluetooth.ResultAddress r))
        as [c|] eqn:Hc; [|reflexivity].
      rewrite (Connect_refused env w r c Hs Hf Hc) in Hnil. discriminate.
    + rewrite (Connect_not_found env w Hs Hf) in Hnil. discriminate.
  - intros [Hs [r [Hf Hc]]]. now rewrite (Connect_succeeds env w r Hs Hf Hc).
Qed.

(** X1.  [Connect] returns [nil] exactly when the scan starts, some
    advertisement carries the configured name, and the link to the
    first such advertisement comes up. *)
Theorem Connect_succeeds_iff :
  forall (env : Stack) (w : World),
    fst (Connect env w) = Returns None
    <-> (scanErr env = None
         /\ exists r : bluetooth.ScanResult,
             first_match (deviceName (b w)) (adverts env) = Some r
             /\ connectErr env (connect_attempts (trace w))
                           (bluetooth.ResultAddress r) = None).
Proof. exact Connect_nil_iff. Qed.

(** The result of [PrintText] is read off [b.device]. *)
Lemma PrintText_result (text : string) (w : World) :
  fst (PrintText text w) = alone (device (b w)).
Proof. unfold PrintText, bind, get_b. destruct (device (b w)); reflexivity. Qed.

(** X2.  A [Connect] that returns an error leaves the receiver as it
    was: [b.device] is written only on the way to success, so a printer
    connected before keeps its old device and [PrintText] answers as
    before. *)
Theorem Connect_failure_keeps_receiver :
  forall (env : Stack) (w : World) (e : error),
    fst (Connect env w) = Returns (Some e) ->
    b (snd (Connect env w)) = b w
    /\ inbox (snd (Connect env w)) = inbox w
    /\ (forall text : string,
           fst (PrintText text (snd (Connect env w))) = fst (PrintText text w)).
Proof.
  intros env w e He.
  assert (Hb : b (snd (Connect env w)) = b w /\ inbox (snd (Connect env w)) = inbox w).
  { destruct (scanErr env) as [c|] eqn:Hs.
    { rewrite (Connect_scan_fails env w c Hs). split; reflexivity. }
    destruct (first_match (deviceName (b w)) (adverts env)) as [r|] eqn:Hf.
    - destruct (connectErr env (connect_attempts (trace w)) (bluetooth.ResultAddress r))
        as [c|] eqn:Hc.
      + rewrite (Connect_refused env w r c Hs Hf Hc). split; reflexivity.
      + rewrite (Connect_succeeds env w r Hs Hf Hc) in He. discriminate.
    - rewrite (Connect_not_found env w Hs Hf). split; reflexivity. }
  destruct Hb as [Hb Hi]. split; [exact Hb|]. split; [exact Hi|].
  intros text. now rewrite !PrintText_result, Hb.
Qed.

Lemma Connect_failure_keeps_receiver_witness :
  b (snd (Connect refusing_stack connected_world)) = b connected_world.
Proof.
  refine (proj1 (Connect_failure_keeps_receiver refusing_stack connected_world
           (Wrapf "failed to connect to device" (Errorf "connection refused")) _)).
  reflexivity.
Defined.

(** X3.  Every [Connect] starts exactly one scan.  Once the scan has
    started, [Connect] comes back only if some advertisement carries
    the configured name, and then the adapter is no longer scanning.
    If none does, [Connect] never returns: it stays in [adapter.Scan]
    with the scan running, so the error "device not found within
    timeout" is never returned. *)
Theorem Connect_stops_its_scan :
  forall (env : Stack) (w : World),
    scans_started (trace (snd (Connect env w))) = scans_started (trace w) + 1
    /\ (forall r : bluetooth.ScanResult,
           scanErr env = None ->
           first_match (deviceName (b w)) (adverts env) = Some r ->
           fst (Connect env w) <> Blocks
           /\ scanning (snd (Connect env w)) = false)
    /\ (scanErr env = None ->
        first_match (deviceName (b w)) (adverts env) = None ->
        fst (Connect env w) = Blocks
        /\ scanning (snd (Connect env w)) = true)
    /\ fst (Connect env w)
       <> Returns (Some (Errorf "device not found within timeout")).
Proof.
  intros env w. split; [|split; [|split]].
  - destruct (Connect_trace env w) as [evs [Ht [Hs _]]].
    now rewrite Ht, scans_started_app, Hs.
  - intros r Hs Hf.
    destruct (connectErr env (connect_attempts (trace w)) (bluetooth.ResultAddress r))
      as [c|] eqn:Hc.
    + rewrite (Connect_refused env w r c Hs Hf Hc). split; [discriminate|reflexivity].
    + rewrite (Connect_succeeds env w r Hs Hf Hc). split; [discriminate|reflexivity].
  - intros Hs Hf. rewrite (Connect_not_found env w Hs Hf). split; reflexivity.
  - intros He.
    destruct (Connect_error_origin env w _ He)
      as [[c [_ E]] | [r [c [_ [_ [_ E]]]]]]; discriminate E.
Qed.

Lemma Connect_stops_its_scan_witness :
  (fst (Connect (stack_with [headphones; weak_printer]) fresh_world) <> Blocks
   /\ scanning (snd (Connect (stack_with [headphones; weak_printer]) fresh_world))
      = false)
  /\ (fst (Connect (stack_with [headphones]) fresh_world) = Blocks
      /\ scanning (snd (Connect (stack_with [headphones]) fresh_world)) = true).
Proof.
  split.
  - apply (proj1 (proj2 (Connect_stops_its_scan
                           (stack_with [headphones; weak_printer]) fresh_world))
                 weak_printer); reflexivity.
  - apply (proj1 (proj2 (proj2 (Connect_stops_its_scan
                                  (stack_with [headphones]) fresh_world))));
      reflexivity.
Defined.

(** What [Disconnect] adds to the trace. *)
Lemma Disconnect_trace (env : Stack) (w : World) :
  exists evs : list Event,
    trace (snd (Disconnect env w)) = trace w ++ evs
    /\ frames_written evs = []
    /\ scans_started evs = 0
    /\ connect_attempts evs = 0.
Proof.
  unfold Disconnect, device_Disconnect, logger_Println, emit, set_device,
    bind, get_b, ret.
  destruct (device (b w)) as [d|]; cbn.
  - destruct (disconnectErr env (bluetooth.DeviceAddress d)); cbn;
      rewrite <- ?app_assoc; eexists; (split; [reflexivity|]); repeat split.
  - exists []. rewrite app_nil_r. repeat split.
Qed.

(** What [PrintText] adds to the trace: nothing, or its two log lines. *)
Lemma PrintText_trace (text : string) (w : World) :
  PrintText text w
  = (alone (device (b w)),
     log_to w (match device (b w) with
               | None => []
               | Some _ => [Log ("Printing text: " ++ text);
                            Log "Converting text to bitmap (placeholder)"]
               end)).
Proof.
  destruct (device (b w)) as [d|] eqn:Hd.
  - rewrite (PrintText_connected text w d Hd). reflexivity.
  - rewrite log_to_nil. unfold PrintText, bind, get_b. now rewrite Hd.
Qed.

(** [Connect] writes nothing to the printer. *)
Lemma adapter_never_writes_Connect (env : Stack) (w : World) :
  frames_written (trace (snd (Connect env w))) = frames_written (trace w).
Proof.
  destruct (Connect_trace env w) as [evs [Ht [_ [Hf _]]]].
  rewrite Ht, frames_written_app, Hf. apply app_nil_r.
Qed.

(** X4.  No method of the adapter writes to the printer: [Connect],
    [PrintText] and [Disconnect] leave the packets written so far as
    they are, in every environment. *)
Theorem adapter_never_writes :
  forall (env : Stack) (text : string) (w : World),
    frames_written (trace (snd (Connect env w))) = frames_written (trace w)
    /\ frames_written (trace (snd (PrintText text w))) = frames_written (trace w)
    /\ frames_written (trace (snd (Disconnect env w))) = frames_written (trace w).
Proof.
  intros env text w. split; [|split].
  - destruct (Connect_trace env w) as [evs [Ht [_ [Hf _]]]].
    rewrite Ht, frames_written_app, Hf. apply app_nil_r.
  - rewrite PrintText_trace. cbn [snd log_to trace].
    rewrite frames_written_app. destruct (device (b w)); apply app_nil_r.
  - destruct (Disconnect_trace env w) as [evs [Ht [Hf _]]].
    rewrite Ht, frames_written_app, Hf. apply app_nil_r.
Qed.

(** X5.  [PrintText] has no effect beyond its log lines and never
    reaches [sendBitmap]: it always returns an error, leaves the
    receiver, the scanning flag and the unread replies alone, and logs
    no "Sending ..." line. *)
Theorem PrintText_only_logs :
  forall (text : string) (w : World),
    fst (PrintText text w) <> None
    /\ b (snd (PrintText text w)) = b w
    /\ scanning (snd (PrintText text w)) = scanning w
    /\ inbox (snd (PrintText text w)) = inbox w
    /\ (forall bitmap : list byte,
           In (Log ("Sending " ++ itoa (length bitmap)
                    ++ " bytes to printer (placeholder)"))
              (trace (snd (PrintText text w)))
           -> In (Log ("Sending " ++ itoa (length bitmap)
                       ++ " bytes to printer (placeholder)"))
                 (trace w)).
Proof.
  intros text w. rewrite PrintText_trace. cbn [fst snd log_to b scanning inbox trace].
  split; [destruct (device (b w)); discriminate|].
  repeat split.
  intros bitmap Hin. apply in_app_or in Hin. destruct Hin as [Hin|Hin]; [exact Hin|].
  destruct (device (b w)); cbn in Hin.
  - destruct Hin as [E|[E|[]]]; discriminate E.
  - contradiction.
Qed.

(** [Disconnect] on a printer holding [d], by what [device.Disconnect]
    returns. *)
Lemma Disconnect_connected (env : Stack) (w : World) (d : bluetooth.Device) :
  device (b w) = Some d ->
  Disconnect env w
  = match disconnectErr env (bluetooth.DeviceAddress d) with
    | Some c =>
        (Some (Wrapf "failed to disconnect" c),
         log_to w [Log "Disconnecting from printer";
                   DeviceDisconnect (bluetooth.DeviceAddress d)])
    | None =>
        (None,
         mkWorld (mkBLEPrinter None (deviceName (b w)) (scanTimeout (b w)))
                 (scanning w) (inbox w)
                 (trace w ++ [Log "Disconnecting from printer";
                              DeviceDisconnect (bluetooth.DeviceAddress d);
                              Log "Disconnected successfully"]))
    end.
Proof.
  intros Hd. unfold Disconnect, device_Disconnect, logger_Println, emit,
    set_device, bind, get_b, ret. rewrite Hd. cbn.
  destruct (disconnectErr env (bluetooth.DeviceAddress d)); cbn;
    unfold log_to; now rewrite <- !app_assoc.
Qed.

(** X6.  When [device.Disconnect] fails, [Disconnect] returns "failed
    to disconnect" wrapping the cause and keeps [b.device], so the next
    [Disconnect] tries the same device again. *)
Theorem Disconnect_failure_keeps_device :
  forall (env : Stack) (w : World) (d : bluetooth.Device) (c : error),
    device (b w) = Some d ->
    disconnectErr env (bluetooth.DeviceAddress d) = Some c ->
    fst (Disconnect env w) = Some (Wrapf "failed to disconnect" c)
    /\ b (snd (Disconnect env w)) = b w
    /\ fst (Disconnect env (snd (Disconnect env w)))
       = Some (Wrapf "failed to disconnect" c)
    /\ server.disconnect_calls (trace (snd (Disconnect env (snd (Disconnect env w)))))
       = server.disconnect_calls (trace w) + 2.
Proof.
  intros env w d c Hd Hc.
  rewrite (Disconnect_connected env w d Hd), Hc. cbn [fst snd log_to b].
  split; [reflexivity|]. split; [reflexivity|].
  rewrite (Disconnect_connected env _ d) by exact Hd.
  rewrite Hc. cbn [fst snd log_to trace].
  split; [reflexivity|].
  rewrite !disconnect_calls_app. cbn. lia.
Qed.

Lemma Disconnect_failure_keeps_device_witness :
  b (snd (Disconnect (mkStack None None [] false (fun _ _ => None)
                              (fun _ => Some (Errorf "link busy")))
                     connected_world))
  = b connected_world.
Proof.
  refine (proj1 (proj2 (Disconnect_failure_keeps_device
            (mkStack None None [] false (fun _ _ => None)
                     (fun _ => Some (Errorf "link busy")))
            connected_world (bluetooth.mkDevice "C0:FF:EE:00:00:01")
            (Errorf "link busy") _ _))); reflexivity.
Defined.

(** X7.  Connecting and then disconnecting brings an unconnected
    printer back to where it was: when both calls return [nil], the
    receiver's fields are those before [Connect], and [PrintText]
    again answers "not connected to printer". *)
Theorem Connect_Disconnect_round_trip :
  forall (env : Stack) (w : World),
    device (b w) = None ->
    fst (Connect env w) = Returns None ->
    fst (Disconnect env (snd (Connect env w))) = None ->
    b (snd (Disconnect env (snd (Connect env w)))) = b w
    /\ (forall text : string,
           fst (PrintText text (snd (Disconnect env (snd (Connect env w)))))
           = Some (Errorf "not connected to printer")).
Proof.
  intros env w Hd Hc Hdis.
  apply Connect_nil_iff in Hc. destruct Hc as [Hs [r [Hf Hc]]].
  revert Hdis. rewrite (Connect_succeeds env w r Hs Hf Hc). cbn [snd].
  rewrite (Disconnect_connected env _ (bluetooth.mkDevice (bluetooth.ResultAddress r)))
    by reflexivity.
  cbn [bluetooth.DeviceAddress].
  destruct (disconnectErr env (bluetooth.ResultAddress r)); [discriminate|].
  intros _. cbn [snd b deviceName scanTimeout].
  split.
  - destruct (b w) as [dv nm to]. cbn in Hd |- *. now subst dv.
  - intros text. now rewrite PrintText_result.
Qed.

Lemma Connect_Disconnect_round_trip_witness :
  b (snd (Disconnect (stack_with [weak_printer])
            (snd (Connect (stack_with [weak_printer]) fresh_world))))
  = b fresh_world.
Proof.
  refine (proj1 (Connect_Disconnect_round_trip
                   (stack_with [weak_printer]) fresh_world _ _ _));
    reflexivity.
Defined.

(** X8.  [Connect] never closes a link.  Called on a printer that holds
    a device, a successful [Connect] replaces [b.device] by the newly
    found device without [device.Disconnect] having been called on
    the old one. *)
Theorem Connect_never_disconnects :
  forall (env : Stack) (w : World),
    server.disconnect_calls (trace (snd (Connect env w)))
    = server.disconnect_calls (trace w)
    /\ (forall (old : bluetooth.Device) (r : bluetooth.ScanResult),
           device (b w) = Some old ->
           fst (Connect env w) = Returns None ->
           first_match (deviceName (b w)) (adverts env) = Some r ->
           device (b (snd (Connect env w)))
           = Some (bluetooth.mkDevice (bluetooth.ResultAddress r))).
Proof.
  intros env w. split.
  - destruct (Connect_trace env w) as [evs [Ht [_ [_ Hd]]]].
    rewrite Ht, disconnect_calls_app, Hd. lia.
  - intros old r Hold Hnil Hf.
    apply Connect_nil_iff in Hnil. destruct Hnil as [Hs [r' [Hf' Hc]]].
    assert (r' = r) by congruence. subst r'.
    now rewrite (Connect_succeeds env w r Hs Hf Hc).
Qed.

Lemma Connect_never_disconnects_witness :
  device (b (snd (Connect (stack_with [strong_printer]) connected_world)))
  = Some (bluetooth.mkDevice (bluetooth.ResultAddress strong_printer)).
Proof.
  refine (proj2 (Connect_never_disconnects (stack_with [strong_printer])
                   connected_world)
                (bluetooth.mkDevice "C0:FF:EE:00:00:01") strong_printer _ _ _);
    reflexivity.
Defined.

(** [NewBLEPrinter], by what [adapter.Enable] returns. *)
Lemma NewBLEPrinter_cases (env : Stack) (config : BLEPrinterConfig) :
  match enableErr env with
  | Some c =>
      NewBLEPrinter env config = inr (Wrapf "failed to enable BLE adapter" c)
  | None =>
      exists w : World,
        NewBLEPrinter env config = inl w
        /\ device (b w) = None
        /\ deviceName (b w) = DeviceName config
        /\ scanTimeout (b w) <> 0%Z
        /\ (ScanTimeout config <> 0%Z -> scanTimeout (b w) = ScanTimeout config)
        /\ (ScanTimeout config = 0%Z -> scanTimeout (b w) = (10 * Second)%Z)
        /\ trace w = []
  end.
Proof.
  unfold NewBLEPrinter.
  destruct (enableErr env) as [c|]; [reflexivity|].
  eexists. split; [reflexivity|]. cbn.
  destruct (Z.eqb_spec (ScanTimeout config) 0) as [E|E].
  - repeat split; try (intros; reflexivity); try discriminate. congruence.
  - repeat split; try (intros; reflexivity); try assumption. congruence.
Qed.

(** X9.  [NewBLEPrinter] fails only when the adapter cannot be enabled,
    and then with that cause wrapped.  Otherwise the printer it makes
    has no device, the configured name, and a scan timeout that is the
    configured one, or ten seconds when none was configured: never
    zero. *)
Theorem NewBLEPrinter_result :
  forall (env : Stack) (config : BLEPrinterConfig),
    match enableErr env with
    | Some c =>
        NewBLEPrinter env config = inr (Wrapf "failed to enable BLE adapter" c)
    | None =>
        exists w : World,
          NewBLEPrinter env config = inl w
          /\ device (b w) = None
          /\ deviceName (b w) = DeviceName config
          /\ scanTimeout (b w) <> 0%Z
          /\ (ScanTimeout config <> 0%Z -> scanTimeout (b w) = ScanTimeout config)
          /\ (ScanTimeout config = 0%Z -> scanTimeout (b w) = (10 * Second)%Z)
          /\ trace w = []
    end.
Proof. exact NewBLEPrinter_cases. Qed.

End AdapterMore.

(* ===================================================================== *)
(** ** PrintJSON and the stdout printer *)
(* ===================================================================== *)

(** X10.  [PrintJSON] refuses [nil] data and reports a marshalling
    failure as "failed to marshal JSON" wrapping the cause, without
    calling the printer in either case.  Otherwise the printer is
    called once with the marshalled text, whatever that text is, and
    its result is returned. *)
Theorem PrintService_PrintJSON_behaviour :
  forall (P : Type) (I : core.Printer P) (D : Type)
         (marshal : D -> string + error)
         (s : core.PrintService (core.Recorded P)),
    service.PrintService_PrintJSON marshal None s
    = (s, Some (Errorf "data cannot be nil"))
    /\ (forall (d : D) (c : error),
           marshal d = inr c ->
           service.PrintService_PrintJSON marshal (Some d) s
           = (s, Some (Wrapf "failed to marshal JSON" c)))
    /\ (forall (d : D) (text : string),
           marshal d = inl text ->
           let r := service.PrintService_PrintJSON marshal (Some d) s in
           snd r = snd (core.PrintText text (core.inner (core.printer s)))
           /\ core.inner (core.printer (fst r))
              = fst (core.PrintText text (core.inner (core.printer s)))
           /\ core.Calls (core.printer (fst r))
              = core.Calls (core.printer s) ++ [text]).
Proof.
  intros P I D marshal s. split; [reflexivity|]. split.
  - intros d c Hm. unfold service.PrintService_PrintJSON. now rewrite Hm.
  - intros d text Hm r. subst r. unfold service.PrintService_PrintJSON.
    rewrite Hm. cbn.
    destruct (core.PrintText text (core.inner (core.printer s))) as [p' e].
    cbn. repeat split.
Qed.

Lemma PrintService_PrintJSON_behaviour_witness :
  service.PrintService_PrintJSON (fun _ : nat => inr (Errorf "unsupported type"))
    (Some 0) (core.NewPrintService (core.mkRecorded (core.mkMock "" None) []))
  = (core.NewPrintService (core.mkRecorded (core.mkMock "" None) []),
     Some (Wrapf "failed to marshal JSON" (Errorf "unsupported type"))).
Proof.
  refine (proj1 (proj2 (PrintService_PrintJSON_behaviour core.mockPrinter _ nat
            (fun _ : nat => inr (Errorf "unsupported type"))
            (core.NewPrintService (core.mkRecorded (core.mkMock "" None) []))))
          0 (Errorf "unsupported type") _).
  reflexivity.
Defined.

(** X11.  Over the stdout printer the service fails on the empty text
    only.  A non-empty text is written to standard output between the
    two marker lines, in that order: the opening marker through the
    logger, the text on standard output, the closing marker through
    the logger; and [nil] is returned.  The empty text leaves the
    printer's output as it was. *)
Theorem PrintService_over_MockPrinter :
  forall (text : string) (m : printer.MockPrinter),
    let r := core.PrintService_PrintText text (core.NewPrintService m) in
    (snd r = None <-> text <> "")
    /\ (text <> "" ->
        printer.written (core.printer (fst r))
        = printer.written m
          ++ [printer.Logged "=== MOCK PRINTER OUTPUT ===";
              printer.Printed text;
              printer.Logged "=== END MOCK PRINTER OUTPUT ==="]
        /\ printer.stdout (core.printer (fst r)) = printer.stdout m ++ [text]
        /\ printer.logged (core.printer (fst r))
           = printer.logged m ++ ["=== MOCK PRINTER OUTPUT ===";
                                  "=== END MOCK PRINTER OUTPUT ==="])
    /\ (text = "" -> core.printer (fst r) = m).
Proof.
  intros text m r. subst r.
  destruct (String.eqb_spec text "") as [E|E].
  - subst text. cbn. repeat split; try congruence; try discriminate.
  - rewrite PrintService_PrintText_nonempty by exact E.
    cbn [fst snd core.printer core.NewPrintService core.PrintText
         printer.MockPrinter_Printer].
    destruct (MockPrinter_always_succeeds text m) as [Hn [Hs Hl]].
    split; [split; [intros _; exact E | intros _; exact Hn]|].
    split; [intros _; split; [reflexivity | split; [exact Hs | exact Hl]]|].
    intros E'. contradiction.
Qed.

Lemma PrintService_over_MockPrinter_witness :
  printer.written
    (core.printer (fst (core.PrintService_PrintText "Hello, World!"
                          (core.NewPrintService (printer.mkMockPrinter [])))))
  = printer.written (printer.mkMockPrinter [])
    ++ [printer.Logged "=== MOCK PRINTER OUTPUT ===";
        printer.Printed "Hello, World!";
        printer.Logged "=== END MOCK PRINTER OUTPUT ==="].
Proof.
  refine (proj1 (proj1 (proj2 (PrintService_over_MockPrinter "Hello, World!"
                          (printer.mkMockPrinter []))) _)).
  discriminate.
Defined.

(* ===================================================================== *)
(** ** Configuration *)
(* ===================================================================== *)

Section ConfigFacts.

Variable os_Getenv : string -> string.
Variable time_ParseDuration : string -> Z + error.

(** [getEnv] takes an empty value for a missing one. *)
Lemma getEnv_cases (key defaultValue : string) :
  (os_Getenv key = "" /\ config.getEnv os_Getenv key defaultValue = defaultValue)
  \/ (os_Getenv key <> "" /\ config.getEnv os_Getenv key defaultValue = os_Getenv key).
Proof.
  unfold config.getEnv.
  destruct (String.eqb_spec (os_Getenv key) "") as [E|E]; cbn; auto.
Qed.

Lemma getEnv_nonempty (key defaultValue : string) :
  defaultValue <> "" -> config.getEnv os_Getenv key defaultValue <> "".
Proof.
  intros Hd. destruct (getEnv_cases key defaultValue) as [[_ E]|[Hne E]];
    rewrite E; assumption.
Qed.

End ConfigFacts.

(** [Validate] returns [nil] exactly for these configurations. *)
Lemma Validate_None_iff (c : config.Config) :
  config.Validate c = None
  <-> (config.Type_ (config.Printer c) = "mock"
       \/ (config.Type_ (config.Printer c) = "ble"
           /\ config.DeviceName (config.Printer c) <> "")).
Proof.
  unfold config.Validate.
  destruct (String.eqb_spec (config.Type_ (config.Printer c)) "mock") as [Em|Em];
  destruct (String.eqb_spec (config.Type_ (config.Printer c)) "ble") as [Eb|Eb];
  destruct (String.eqb_spec (config.DeviceName (config.Printer c)) "") as [Ed|Ed];
  cbn; split; intros Hx; try reflexivity; try discriminate; auto;
  try (destruct Hx as [Hx|[Hx Hy]]; congruence).
  all: rewrite Em in Eb; discriminate.
Qed.

(** X12.  [Validate] accepts a configuration exactly when the printer
    type is "mock", or it is "ble" and a device name is given. *)
Theorem Validate_accepts_iff :
  forall c : config.Config,
    config.Validate c = None
    <-> (config.Type_ (config.Printer c) = "mock"
         \/ (config.Type_ (config.Printer c) = "ble"
             /\ config.DeviceName (config.Printer c) <> "")).
Proof. exact Validate_None_iff. Qed.

(** X13.  [Load] fails exactly when PRINTER_TYPE is set to something
    other than "mock" or "ble", and then with "invalid printer type"
    naming that value.  In every other environment it succeeds with a
    configuration that [Validate] accepts and whose port and device
    name are not empty: a variable set to the empty string counts as
    not set, so the "device name is required" error cannot come out
    of [Load]. *)
Theorem Load_outcome :
  forall (os_Getenv : string -> string) (time_ParseDuration : string -> Z + error),
    let type := os_Getenv "PRINTER_TYPE" in
    (type = "" \/ type = "mock" \/ type = "ble" ->
     exists cfg : config.Config,
       config.Load os_Getenv time_ParseDuration = inl cfg
       /\ config.Validate cfg = None
       /\ config.Type_ (config.Printer cfg) = (if String.eqb type "" then "mock" else type)
       /\ config.Port (config.Server cfg) <> ""
       /\ config.DeviceName (config.Printer cfg) <> "")
    /\ (type <> "" -> type <> "mock" -> type <> "ble" ->
        config.Load os_Getenv time_ParseDuration
        = inr (Errorf ("invalid printer type: " ++ type
                       ++ " (must be 'mock' or 'ble')"))).
Proof.
  intros os_Getenv time_ParseDuration type.
  assert (Hname : config.getEnv os_Getenv "PRINTER_DEVICE_NAME" "Peripage" <> "").
  { apply getEnv_nonempty. discriminate. }
  assert (Hport : config.getEnv os_Getenv "PORT" "8080" <> "").
  { apply getEnv_nonempty. discriminate. }
  assert (Htype : config.getEnv os_Getenv "PRINTER_TYPE" "mock"
                  = if String.eqb type "" then "mock" else type).
  { unfold config.getEnv. fold type. now destruct (String.eqb type ""). }
  split.
  - intros Hok.
    assert (Hval : config.Type_ (config.Printer
               (config.mkConfig
                  (config.mkServerConfig (config.getEnv os_Getenv "PORT" "8080"))
                  (config.mkPrinterConfig
                     (config.getEnv os_Getenv "PRINTER_TYPE" "mock")
                     (config.getEnv os_Getenv "PRINTER_DEVICE_NAME" "Peripage")
                     (config.parseDuration time_ParseDuration
                        (config.getEnv os_Getenv "PRINTER_TIMEOUT" "30s")))
                  (config.mkBLEConfig
                     (config.parseDuration time_ParseDuration
                        (config.getEnv os_Getenv "BLE_SCAN_TIMEOUT" "10s")))))
             = "mock"
             \/ config.getEnv os_Getenv "PRINTER_TYPE" "mock" = "ble").
    { cbn. rewrite Htype.
      destruct Hok as [E|[E|E]]; rewrite E; cbn; auto. }
    unfold config.Load.
    match goal with |- context [config.Validate ?c] =>
      assert (Hv : config.Validate c = None)
    end.
    { apply Validate_None_iff. cbn in Hval |- *.
      destruct Hval as [E|E]; [left; exact E | right; split; assumption]. }
    rewrite Hv. eexists. split; [reflexivity|].
    split; [exact Hv|]. cbn. repeat split; assumption.
  - intros H0 Hm Hb. unfold config.Load, config.Validate. cbn.
    rewrite Htype.
    destruct (String.eqb_spec type "") as [E|_]; [contradiction|].
    destruct (String.eqb_spec type "mock") as [E|_]; [contradiction|].
    destruct (String.eqb_spec type "ble") as [E|_]; [contradiction|].
    reflexivity.
Qed.

Lemma Load_outcome_witness :
  config.Load (fun key => if String.eqb key "PRINTER_TYPE" then "usb" else "")
              server.two_durations
  = inr (Errorf "invalid printer type: usb (must be 'mock' or 'ble')").
Proof.
  refine (proj2 (Load_outcome
            (fun key => if String.eqb key "PRINTER_TYPE" then "usb" else "")
            server.two_durations) _ _ _); discriminate.
Defined.

(** X14.  [Load] never fails on a duration.  A PRINTER_TIMEOUT or
    BLE_SCAN_TIMEOUT that [time.ParseDuration] rejects becomes zero
    without an error; and a BLE printer built from the loaded
    configuration, as [main] builds it, then scans for ten seconds:
    its scan timeout is never zero. *)
Theorem Load_bad_duration :
  forall (os_Getenv : string -> string) (time_ParseDuration : string -> Z + error)
         (cfg : config.Config),
    config.Load os_Getenv time_ParseDuration = inl cfg ->
    (forall e : error,
        time_ParseDuration (config.getEnv os_Getenv "PRINTER_TIMEOUT" "30s") = inr e ->
        config.Timeout (config.Printer cfg) = 0%Z)
    /\ (forall e : error,
           time_ParseDuration (config.getEnv os_Getenv "BLE_SCAN_TIMEOUT" "10s") = inr e ->
           config.ScanTimeout (config.BLE cfg) = 0%Z)
    /\ (forall (env : printer.Stack) (w : printer.World),
           printer.NewBLEPrinter env
             (printer.mkConfig (config.DeviceName (config.Printer cfg))
                               (config.ScanTimeout (config.BLE cfg))) = inl w ->
           printer.scanTimeout (printer.b w) <> 0%Z
           /\ printer.deviceName (printer.b w) <> ""
           /\ (forall e : error,
                  time_ParseDuration
                    (config.getEnv os_Getenv "BLE_SCAN_TIMEOUT" "10s") = inr e ->
                  printer.scanTimeout (printer.b w) = (10 * printer.Second)%Z)).
Proof.
  intros os_Getenv time_ParseDuration cfg Hload.
  unfold config.Load in Hload.
  destruct (config.Validate _) in Hload; [discriminate|].
  injection Hload as <-. cbn [config.Printer config.BLE config.Timeout
                              config.ScanTimeout config.DeviceName].
  split; [|split].
  - intros e He. unfold config.parseDuration. now rewrite He.
  - intros e He. unfold config.parseDuration. now rewrite He.
  - intros env w Hnew.
    pose proof (NewBLEPrinter_cases env
                  (printer.mkConfig
                     (config.getEnv os_Getenv "PRINTER_DEVICE_NAME" "Peripage")
                     (config.parseDuration time_ParseDuration
                        (config.getEnv os_Getenv "BLE_SCAN_TIMEOUT" "10s")))) as Hres.
    destruct (printer.enableErr env) as [c|].
    { rewrite Hres in Hnew. discriminate. }
    destruct Hres as [w' [Hw' [_ [Hname [Hnz [_ [Hzero _]]]]]]].
    rewrite Hw' in Hnew. injection Hnew as <-.
    split; [exact Hnz|]. split.
    + rewrite Hname. cbn. apply getEnv_nonempty. discriminate.
    + intros e He. apply Hzero. cbn. unfold config.parseDuration. now rewrite He.
Qed.

Lemma Load_bad_duration_witness :
  config.Timeout
    (config.Printer
       (config.mkConfig (config.mkServerConfig "8080")
          (config.mkPrinterConfig "mock" "Peripage" 0)
          (config.mkBLEConfig (10 * printer.Second)))) = 0%Z.
Proof.
  refine (proj1 (Load_bad_duration
            (fun key => if String.eqb key "PRINTER_TIMEOUT" then "soon" else "")
            server.two_durations _ _)
          (Errorf "time: invalid duration") _); reflexivity.
Defined.

(* ===================================================================== *)
(** ** The HTTP handler *)
(* ===================================================================== *)

Section HandlerFacts.

Context {P : Type} {I : core.Printer P} {MapT : Type}.
Variable len : MapT -> nat.
Variable marshal : MapT -> string + error.

(** A request with a text and no usable data: the text goes to the
    printer as it is. *)
Lemma Print_text (req : api.PrintRequest MapT) (h : api.Handler P) :
  api.no_data len req ->
  api.Text req <> "" ->
  api.Print len marshal (inl req) h
  = (api.mkHandler
       (core.mkPrintService
          (fst (core.PrintText (api.Text req) (core.printer (api.service h))))),
     api.reply_to (snd (core.PrintText (api.Text req) (core.printer (api.service h))))).
Proof.
  intros Hno Hne. unfold api.Print, api.no_data in *.
  assert (Hcall : (if negb (String.eqb (api.Text req) "")
                   then Some (core.PrintService_PrintText (api.Text req) (api.service h))
                   else None)
                  = Some (core.mkPrintService
                            (fst (core.PrintText (api.Text req)
                                    (core.printer (api.service h)))),
                          snd (core.PrintText (api.Text req)
                                 (core.printer (api.service h))))).
  { rewrite (nonempty_eqb _ Hne). cbn [negb].
    now rewrite PrintService_PrintText_nonempty. }
  destruct (api.Data req) as [m|].
  - rewrite Hno. cbn [Nat.ltb Nat.leb]. rewrite Hcall.
    destruct (snd (core.PrintText _ _)); reflexivity.
  - rewrite Hcall. destruct (snd (core.PrintText _ _)); reflexivity.
Qed.

(** A request with a non-empty map: the map is marshalled and printed. *)
Lemma Print_data (req : api.PrintRequest MapT) (m : MapT) (h : api.Handler P) :
  api.Data req = Some m ->
  0 < len m ->
  api.Print len marshal (inl req) h
  = match marshal m with
    | inr c =>
        (api.mkHandler (api.service h),
         api.reply_to (Some (Wrapf "failed to marshal JSON" c)))
    | inl js =>
        (api.mkHandler
           (core.mkPrintService
              (fst (core.PrintText js (core.printer (api.service h))))),
         api.reply_to (snd (core.PrintText js (core.printer (api.service h)))))
    end.
Proof.
  intros Hd Hlen. unfold api.Print. rewrite Hd.
  apply Nat.ltb_lt in Hlen. rewrite Hlen.
  unfold service.PrintService_PrintJSON.
  destruct (marshal m) as [js|c]; [|reflexivity].
  destruct (core.PrintText js (core.printer (api.service h))) as [p' [e|]];
    reflexivity.
Qed.

(** A request with neither: refused, the handler untouched. *)
Lemma Print_neither (req : api.PrintRequest MapT) (h : api.Handler P) :
  api.no_data len req ->
  api.Text req = "" ->
  api.Print len marshal (inl req) h
  = (h, api.mkResponse 400
          (api.ErrorResponse "Either 'text' or 'data' must be provided")).
Proof.
  intros Hno He. unfold api.Print, api.no_data in *. rewrite He.
  destruct (api.Data req) as [m|]; [rewrite Hno|]; reflexivity.
Qed.

Lemma no_data_dec (req : api.PrintRequest MapT) :
  api.no_data len req \/ exists m, api.Data req = Some m /\ 0 < len m.
Proof.
  unfold api.no_data. destruct (api.Data req) as [m|]; [|now left].
  destruct (len m) eqn:E; [now left|]. right. exists m. split; [reflexivity|lia].
Qed.

Lemma mkHandler_eta (h : api.Handler P) : api.mkHandler (api.service h) = h.
Proof. destruct h; reflexivity. Qed.

End HandlerFacts.

(** X15.  [Print] answers 400 exactly when the body could not be bound,
    or it carries neither a text nor a non-empty data map; and a 400
    leaves the handler, and so the printer, untouched. *)
Theorem Print_bad_request :
  forall (P : Type) (I : core.Printer P) (MapT : Type) (len : MapT -> nat)
         (marshal : MapT -> string + error)
         (bound : api.PrintRequest MapT + error) (h : api.Handler P),
    (api.Code (snd (api.Print len marshal bound h)) = 400
     <-> ((exists err, bound = inr err)
          \/ (exists req, bound = inl req /\ api.no_data len req /\ api.Text req = "")))
    /\ (api.Code (snd (api.Print len marshal bound h)) = 400 ->
        fst (api.Print len marshal bound h) = h).
Proof.
  intros P I MapT len marshal bound h.
  destruct bound as [req|err].
  - destruct (no_data_dec len req) as [Hno|[m [Hd Hlen]]].
    + destruct (String.eqb_spec (api.Text req) "") as [E|E].
      * rewrite (Print_neither len marshal req h Hno E). cbn. split; [|reflexivity].
        split; [|reflexivity]. intros _. right. exists req. auto.
      * rewrite (Print_text len marshal req h Hno E). cbn [fst snd].
        destruct (snd (core.PrintText _ _)); cbn;
          (split; [split|]; try discriminate;
           intros [[err Herr]|[req' [Hreq [_ Ht]]]];
           [discriminate | injection Hreq as <-; contradiction]).
    + rewrite (Print_data len marshal req m h Hd Hlen).
      assert (Hnot : ~ ((exists err, @inl _ error req = inr err)
                        \/ (exists req', @inl _ error req = inl req'
                                         /\ api.no_data len req' /\ api.Text req' = ""))).
      { intros [[err Herr]|[req' [Hreq [Hno _]]]]; [discriminate|].
        injection Hreq as <-. unfold api.no_data in Hno. rewrite Hd in Hno. lia. }
      destruct (marshal m) as [js|c]; cbn [fst snd].
      * destruct (snd (core.PrintText _ _)); cbn;
          (split; [split|]; try discriminate; intros Hx; contradiction).
      * cbn. split; [split|]; try discriminate. intros Hx; contradiction.
  - cbn. split; [|reflexivity]. split; [|reflexivity].
    intros _. left. now exists err.
Qed.

Lemma Print_bad_request_witness :
  fst (api.Print (fun m : string => String.length m) server.text_marshal
         (inl (api.mkPrintRequest "" None))
         (api.NewHandler (core.NewPrintService (core.mkMock "" None))))
  = api.NewHandler (core.NewPrintService (core.mkMock "" None)).
Proof.
  refine (proj2 (Print_bad_request core.mockPrinter _ string
            (fun m : string => String.length m) server.text_marshal
            (inl (api.mkPrintRequest "" None))
            (api.NewHandler (core.NewPrintService (core.mkMock "" None)))) _).
  reflexivity.
Defined.

(** X16.  Data takes precedence over text: with a non-empty data map
    the request's text is ignored, and the printer is called once with
    the marshalled map, or not at all when marshalling fails, which is
    answered with 500. *)
Theorem Print_data_precedence :
  forall (P : Type) (I : core.Printer P) (MapT : Type) (len : MapT -> nat)
         (marshal : MapT -> string + error)
         (req : api.PrintRequest MapT) (m : MapT)
         (h : api.Handler (core.Recorded P)),
    api.Data req = Some m ->
    0 < len m ->
    api.Print len marshal (inl req) h
    = api.Print len marshal (inl (api.mkPrintRequest "" (Some m))) h
    /\ (forall js : string,
           marshal m = inl js ->
           core.Calls (core.printer (api.service
                         (fst (api.Print len marshal (inl req) h))))
           = core.Calls (core.printer (api.service h)) ++ [js])
    /\ (forall c : error,
           marshal m = inr c ->
           api.Print len marshal (inl req) h
           = (h, api.mkResponse 500
                   (api.ErrorResponse
                      ("Print failed: failed to marshal JSON: " ++ Error c)))).
Proof.
  intros P I MapT len marshal req m h Hd Hlen.
  rewrite (Print_data len marshal req m h Hd Hlen).
  rewrite (Print_data len marshal (api.mkPrintRequest "" (Some m)) m h eq_refl Hlen).
  split; [reflexivity|]. split.
  - intros js Hjs. rewrite Hjs. cbn.
    destruct (core.PrintText js (core.inner (core.printer (api.service h)))).
    reflexivity.
  - intros c Hc. rewrite Hc. now rewrite mkHandler_eta.
Qed.

Lemma Print_data_precedence_witness :
  core.Calls (core.printer (api.service
    (fst (api.Print (fun m : string => String.length m) server.text_marshal
            (inl (api.mkPrintRequest "This will be ignored" (Some "{}")))
            (api.NewHandler (core.NewPrintService
                               (core.mkRecorded (core.mkMock "" None) [])))))))
  = core.Calls (core.printer (api.service
      (api.NewHandler (core.NewPrintService
                         (core.mkRecorded (core.mkMock "" None) []))))) ++ ["{}"].
Proof.
  refine (proj1 (proj2 (Print_data_precedence core.mockPrinter _ string
            (fun m : string => String.length m) server.text_marshal
            (api.mkPrintRequest "This will be ignored" (Some "{}")) "{}"
            (api.NewHandler (core.NewPrintService
                               (core.mkRecorded (core.mkMock "" None) [])))
            _ _)) "{}" _).
  - reflexivity.
  - cbn. lia.
  - reflexivity.
Defined.

(** X17.  A request with a text and no usable data reaches the printer
    with exactly that text: the answer is 200 when the printer returns
    [nil] and otherwise 500 with "Print failed: " and the printer's
    message.  The service's own refusal of an empty text cannot occur
    on this path. *)
Theorem Print_text_request :
  forall (P : Type) (I : core.Printer P) (MapT : Type) (len : MapT -> nat)
         (marshal : MapT -> string + error)
         (req : api.PrintRequest MapT) (h : api.Handler (core.Recorded P)),
    api.no_data len req ->
    api.Text req <> "" ->
    let r := api.Print len marshal (inl req) h in
    let p := core.PrintText (api.Text req)
                            (core.inner (core.printer (api.service h))) in
    core.Calls (core.printer (api.service (fst r)))
    = core.Calls (core.printer (api.service h)) ++ [api.Text req]
    /\ core.inner (core.printer (api.service (fst r))) = fst p
    /\ (snd p = None ->
        snd r = api.mkResponse 200
                  (api.PrintResponse true "Print job completed successfully"))
    /\ (forall e : error,
           snd p = Some e ->
           snd r = api.mkResponse 500
                     (api.ErrorResponse ("Print failed: " ++ Error e))).
Proof.
  intros P I MapT len marshal req h Hno Hne r p. subst r p.
  rewrite (Print_text len marshal req h Hno Hne). cbn.
  destruct (core.PrintText (api.Text req)
              (core.inner (core.printer (api.service h)))) as [p' e].
  cbn. split; [reflexivity|]. split; [reflexivity|]. split.
  - intros ->. reflexivity.
  - intros e' ->. reflexivity.
Qed.

Lemma Print_text_request_witness :
  core.Calls (core.printer (api.service
    (fst (api.Print (fun m : string => String.length m) server.text_marshal
            (inl (api.mkPrintRequest "Test" None))
            (api.NewHandler (core.NewPrintService
               (core.mkRecorded (core.mkMock "" (Some (Errorf "printer offline")))
                                [])))))))
  = core.Calls (core.printer (api.service
      (api.NewHandler (core.NewPrintService
         (core.mkRecorded (core.mkMock "" (Some (Errorf "printer offline"))) [])))))
    ++ ["Test"].
Proof.
  refine (proj1 (Print_text_request core.mockPrinter _ string
            (fun m : string => String.length m) server.text_marshal
            (api.mkPrintRequest "Test" None)
            (api.NewHandler (core.NewPrintService
               (core.mkRecorded (core.mkMock "" (Some (Errorf "printer offline")))
                                [])))
            _ _)).
  - exact I.
  - discriminate.
Defined.

(** X18.  [Print] answers 200, 400 or 500, and 200 only after the
    printer has taken a text and returned [nil]: a success is never
    reported without a successful call of the printer. *)
Theorem Print_ok_means_printed :
  forall (P : Type) (I : core.Printer P) (MapT : Type) (len : MapT -> nat)
         (marshal : MapT -> string + error)
         (bound : api.PrintRequest MapT + error) (h : api.Handler P),
    let r := api.Print len marshal bound h in
    (api.Code (snd r) = 200 \/ api.Code (snd r) = 400 \/ api.Code (snd r) = 500)
    /\ (api.Code (snd r) = 200 ->
        exists text : string,
          snd (core.PrintText text (core.printer (api.service h))) = None
          /\ core.printer (api.service (fst r))
             = fst (core.PrintText text (core.printer (api.service h)))).
Proof.
  intros P I MapT len marshal bound h r. subst r.
  destruct bound as [req|err]; [|cbn; split; [auto|discriminate]].
  destruct (no_data_dec len req) as [Hno|[m [Hd Hlen]]].
  - destruct (String.eqb_spec (api.Text req) "") as [E|E].
    + rewrite (Print_neither len marshal req h Hno E). cbn.
      split; [auto|discriminate].
    + rewrite (Print_text len marshal req h Hno E). cbn [fst snd].
      destruct (snd (core.PrintText (api.Text req) _)) eqn:Hp; cbn.
      * split; [auto|discriminate].
      * split; [auto|]. intros _. exists (api.Text req). auto.
  - rewrite (Print_data len marshal req m h Hd Hlen).
    destruct (marshal m) as [js|c]; cbn [fst snd].
    + destruct (snd (core.PrintText js _)) eqn:Hp; cbn.
      * split; [auto|discriminate].
      * split; [auto|]. intros _. exists js. auto.
    + cbn. split; [auto|discriminate].
Qed.

Lemma Print_ok_means_printed_witness :
  exists text : string,
    snd (core.PrintText text
           (core.printer (api.service
              (api.NewHandler (core.NewPrintService (core.mkMock "" None))))))
    = None
    /\ core.printer (api.service
         (fst (api.Print (fun m : string => String.length m) server.text_marshal
                 (inl (api.mkPrintRequest "Hello, World!" None))
                 (api.NewHandler (core.NewPrintService (core.mkMock "" None))))))
       = fst (core.PrintText text
                (core.printer (api.service
                   (api.NewHandler (core.NewPrintService (core.mkMock "" None)))))).
Proof.
  refine (proj2 (Print_ok_means_printed core.mockPrinter _ string
            (fun m : string => String.length m) server.text_marshal
            (inl (api.mkPrintRequest "Hello, World!" None))
            (api.NewHandler (core.NewPrintService (core.mkMock "" None)))) _).
  reflexivity.
Defined.

(** X19.  Over the BLE adapter no request is ever answered with 200:
    whatever state the adapter is in and whatever the body, [Print]
    answers 400 or 500, the adapter stays a BLE adapter with the same
    fields, and nothing has been written to the printer. *)
Theorem Print_over_BLE_never_ok :
  forall (MapT : Type) (len : MapT -> nat) (marshal : MapT -> string + error)
         (bound : api.PrintRequest MapT + error) (w : printer.World),
    let r := api.Print len marshal bound
               (api.NewHandler (core.NewPrintService (server.BLEAdapter w))) in
    api.Code (snd r) <> 200
    /\ exists w' : printer.World,
        core.printer (api.service (fst r)) = server.BLEAdapter w'
        /\ printer.b w' = printer.b w
        /\ printer.frames_written (printer.trace w')
           = printer.frames_written (printer.trace w).
Proof.
  intros MapT len marshal bound w r. subst r.
  set (h := api.NewHandler (core.NewPrintService (server.BLEAdapter w))).
  assert (Hcall : forall text,
            exists w' e,
              core.PrintText text (server.BLEAdapter w) = (server.BLEAdapter w', Some e)
              /\ printer.b w' = printer.b w
              /\ printer.frames_written (printer.trace w')
                 = printer.frames_written (printer.trace w)).
  { intros text. cbn [core.PrintText server.Adapter_Printer].
    rewrite PrintText_trace.
    assert (He : exists e, printer.alone (printer.device (printer.b w)) = Some e).
    { destruct (printer.device (printer.b w)); eexists; reflexivity. }
    destruct He as [e He]. rewrite He.
    eexists. exists e. split; [reflexivity|]. split; [reflexivity|].
    cbn [printer.log_to printer.trace]. rewrite frames_written_app.
    destruct (printer.device (printer.b w)); apply app_nil_r. }
  assert (Hsame : exists w', server.BLEAdapter w = server.BLEAdapter w'
                             /\ printer.b w' = printer.b w
                             /\ printer.frames_written (printer.trace w')
                                = printer.frames_written (printer.trace w)).
  { exists w. auto. }
  destruct bound as [req|err]; [|cbn; split; [discriminate|exact Hsame]].
  destruct (no_data_dec len req) as [Hno|[m [Hd Hlen]]].
  - destruct (String.eqb_spec (api.Text req) "") as [E|E].
    + rewrite (Print_neither len marshal req h Hno E). cbn.
      split; [discriminate|exact Hsame].
    + rewrite (Print_text len marshal req h Hno E). cbn [fst snd].
      destruct (Hcall (api.Text req)) as [w' [e [Hw' Hrest]]].
      subst h. cbn [api.service api.NewHandler core.printer core.NewPrintService].
      rewrite Hw'. cbn. split; [discriminate|]. exists w'. auto.
  - rewrite (Print_data len marshal req m h Hd Hlen).
    destruct (marshal m) as [js|c]; cbn [fst snd].
    + destruct (Hcall js) as [w' [e [Hw' Hrest]]].
      subst h. cbn [api.service api.NewHandler core.printer core.NewPrintService].
      rewrite Hw'. cbn. split; [discriminate|]. exists w'. auto.
    + cbn. split; [discriminate|exact Hsame].
Qed.

(* ===================================================================== *)
(** ** Start-up and shutdown *)
(* ===================================================================== *)

(** What [main] has when it goes on to serve. *)
Lemma main_adapter_running (cfg : config.Config) (env : printer.Stack)
    (a : server.Adapter) :
  server.main_adapter cfg env = server.Running a ->
  (config.Type_ (config.Printer cfg) = "mock"
   /\ exists m, a = server.MockAdapter m /\ printer.stdout m = [])
  \/ (config.Type_ (config.Printer cfg) = "ble"
      /\ printer.enableErr env = None
      /\ exists w d,
          a = server.BLEAdapter w
          /\ printer.device (printer.b w) = Some d
          /\ printer.deviceName (printer.b w) = config.DeviceName (config.Printer cfg)
          /\ printer.scanning w = false
          /\ printer.frames_written (printer.trace w) = []).
Proof.
  unfold server.main_adapter.
  destruct (String.eqb_spec (config.Type_ (config.Printer cfg)) "mock") as [Em|Em].
  { intros Hr. injection Hr as <-. left. split; [exact Em|]. eexists. split; reflexivity. }
  destruct (String.eqb_spec (config.Type_ (config.Printer cfg)) "ble") as [Eb|Eb];
    [|discriminate].
  unfold printer.NewBLEPrinter.
  destruct (printer.enableErr env) as [c|]; [discriminate|].
  cbn [printer.b printer.scanning printer.inbox printer.trace].
  match goal with |- context [printer.Connect env ?x] => set (w1 := x) end.
  destruct (printer.scanErr env) as [c|] eqn:Hs.
  { rewrite (Connect_scan_fails env w1 c Hs). discriminate. }
  destruct (printer.first_match (printer.deviceName (printer.b w1)) (printer.adverts env))
    as [r|] eqn:Hf.
  - destruct (printer.connectErr env (printer.connect_attempts (printer.trace w1))
                (bluetooth.ResultAddress r)) as [c|] eqn:Hc.
    + rewrite (Connect_refused env w1 r c Hs Hf Hc). discriminate.
    + rewrite (Connect_succeeds env w1 r Hs Hf Hc).
      intros Hr. injection Hr as <-. right. split; [exact Eb|]. split; [reflexivity|].
      eexists. eexists. split; [reflexivity|]. cbn [printer.b printer.device
        printer.deviceName printer.scanning printer.trace].
      split; [reflexivity|]. split; [reflexivity|]. split; [reflexivity|].
      cbn [printer.frames_written].
      rewrite !frames_written_app, (proj2 (scan_events_quiet _ _)).
      unfold printer.select_events.
      destruct (printer.doneFirst env); reflexivity.
  - rewrite (Connect_not_found env w1 Hs Hf). discriminate.
Qed.

(** X20.  [main] goes on to serve over BLE only with a connected
    printer: when the adapter it ends up with is the BLE printer, the
    adapter was enabled, a device is held, the scan is over and
    nothing has been written to the printer; when it is the stdout
    printer, the type was "mock" and nothing has been printed yet. *)
Theorem main_serves_connected :
  forall (cfg : config.Config) (env : printer.Stack) (a : server.Adapter),
    server.main_adapter cfg env = server.Running a ->
    match a with
    | server.MockAdapter m =>
        config.Type_ (config.Printer cfg) = "mock" /\ printer.stdout m = []
    | server.BLEAdapter w =>
        config.Type_ (config.Printer cfg) = "ble"
        /\ printer.enableErr env = None
        /\ printer.device (printer.b w) <> None
        /\ printer.deviceName (printer.b w) = config.DeviceName (config.Printer cfg)
        /\ printer.scanning w = false
        /\ printer.frames_written (printer.trace w) = []
    end.
Proof.
  intros cfg env a Hr.
  destruct (main_adapter_running cfg env a Hr)
    as [[Em [m [-> Hm]]] | [Eb [He [w [d [-> [Hd [Hn [Hs Hf]]]]]]]]].
  - auto.
  - repeat split; try assumption. congruence.
Qed.

Lemma main_serves_connected_witness :
  printer.device (printer.b server.started_world) <> None
  /\ printer.scanning server.started_world = false.
Proof.
  refine ((fun Hm => _)
            (main_serves_connected server.ble_config
               (printer.stack_with [printer.weak_printer])
               (server.BLEAdapter server.started_world) _)).
  - cbv beta iota in Hm. destruct Hm as [_ [_ [Hd [_ [Hs _]]]]].
    split; [exact Hd | exact Hs].
  - vm_compute. reflexivity.
Defined.





(** X22.  The shutdown [cleanup] never gives up its adapter: on the
    stdout printer it does nothing, and on a BLE printer holding a
    device it calls [device.Disconnect] once, after which the device
    is dropped when that call succeeded and kept, with the error
    logged, when it failed. *)
Theorem main_cleanup_disconnects :
  forall (env : printer.Stack) (w : printer.World) (d : bluetooth.Device),
    printer.device (printer.b w) = Some d ->
    (forall m, server.main_cleanup env (server.MockAdapter m) = server.MockAdapter m)
    /\ exists w' : printer.World,
        server.main_cleanup env (server.BLEAdapter w) = server.BLEAdapter w'
        /\ server.disconnect_calls (printer.trace w')
           = server.disconnect_calls (printer.trace w) + 1
        /\ (printer.disconnectErr env (bluetooth.DeviceAddress d) = None ->
            printer.device (printer.b w') = None)
        /\ (forall c : error,
               printer.disconnectErr env (bluetooth.DeviceAddress d) = Some c ->
               printer.device (printer.b w') = Some d
               /\ In (printer.Log
                        ("Error disconnecting from printer: failed to disconnect: "
                         ++ Error c))
                     (printer.trace w')).
Proof.
  intros env w d Hd. split; [reflexivity|].
  unfold server.main_cleanup, printer.logger_Println, printer.emit.
  match goal with |- context [printer.Disconnect env ?x] => set (w1 := x) end.
  assert (Hd1 : printer.device (printer.b w1) = Some d) by exact Hd.
  rewrite (Disconnect_connected env w1 d Hd1).
  destruct (printer.disconnectErr env (bluetooth.DeviceAddress d)) as [c|].
  - eexists. split; [reflexivity|]. cbn [snd printer.log_to printer.trace printer.b].
    split; [|split].
    + unfold w1. cbn [printer.trace]. rewrite !disconnect_calls_app. cbn. lia.
    + discriminate.
    + intros c' Hc. injection Hc as <-. split; [exact Hd|].
      apply in_or_app. right. left. reflexivity.
  - eexists. split; [reflexivity|]. cbn [printer.trace printer.b printer.device].
    split; [|split].
    + unfold w1. cbn [printer.trace]. rewrite !disconnect_calls_app. cbn. lia.
    + reflexivity.
    + discriminate.
Qed.

Lemma main_cleanup_disconnects_witness :
  exists w' : printer.World,
    server.main_cleanup (printer.stack_with []) (server.BLEAdapter server.started_world)
    = server.BLEAdapter w'
    /\ server.disconnect_calls (printer.trace w')
       = server.disconnect_calls (printer.trace server.started_world) + 1
    /\ (printer.disconnectErr (printer.stack_with [])
          (bluetooth.DeviceAddress (bluetooth.mkDevice "C0:FF:EE:00:00:01")) = None ->
        printer.device (printer.b w') = None)
    /\ (forall c : error,
           printer.disconnectErr (printer.stack_with [])
             (bluetooth.DeviceAddress (bluetooth.mkDevice "C0:FF:EE:00:00:01")) = Some c ->
           printer.device (printer.b w') = Some (bluetooth.mkDevice "C0:FF:EE:00:00:01")
           /\ In (printer.Log
                    ("Error disconnecting from printer: failed to disconnect: "
                     ++ Error c))
                 (printer.trace w')).
Proof.
  refine (proj2 (main_cleanup_disconnects (printer.stack_with [])
                   server.started_world
                   (bluetooth.mkDevice "C0:FF:EE:00:00:01") _)).
  vm_compute. reflexivity.
Defined.


